(** * Device session and schema validation of the IoT fleet simulators

    A shallow embedding of [simulators/schema_validator.py] and
    [simulators/base_device.py].  Python objects become records, the
    mutable session becomes explicit state passing, exceptions become an
    error result, and everything the two files reach outside themselves
    (the clock, the file system, the [jsonschema] library, the limits of
    [json.dumps], the MQTT client, the device subclass) is an input of the
    function that uses it. *)

From Stdlib Require Import ZArith QArith Lia Bool.
From stdpp Require Import base gmap strings list.

Set Warnings "-register-all".
Local Open Scope Z_scope.
Local Open Scope string_scope.

(** ** Python values *)

(** The values a message, a schema or [self.state] is made of.  A [dict]
    keeps its insertion order, so it is an association list; a float is the
    dyadic [m * 2^e] (no arithmetic is done on floats inside a message);
    [VObject] is any other Python object ([Dict[str, Any]] allows it). *)
Inductive pyval : Type :=
| VNone
| VBool (b : bool)
| VInt (n : Z)
| VFloat (m e : Z)
| VStr (s : string)
| VList (xs : list pyval)
| VDict (kvs : list (string * pyval))
| VObject (tag : string).

(** ** Exceptions *)

Inductive exn : Type :=
| FileNotFoundError
| PermissionError
| IsADirectoryError
| JSONDecodeError
| UnicodeDecodeError
| ValidationError (message : string) (absolute_path : list string)
| SchemaError
| TypeError
| KeyError
| ValueError
| OverflowError
| ConnectionFailed          (* Exception("Connection failed after timeout") *)
| OtherError (what : string)
| KeyboardInterrupt.

(** [isinstance(e, Exception)]: [KeyboardInterrupt] derives from
    [BaseException] only, so [except Exception] lets it through. *)
Definition is_Exception (e : exn) : bool :=
  match e with
  | KeyboardInterrupt => false
  | _ => true
  end.

Inductive res (A : Type) : Type :=
| Ok (a : A)
| Err (e : exn).
Arguments Ok {A} a.
Arguments Err {A} e.

(** ** Operators on values *)

(** [needle in hay] on two [str]. *)
Fixpoint str_contains (needle hay : string) : bool :=
  String.prefix needle hay ||
  match hay with
  | EmptyString => false
  | String _ rest => str_contains needle rest
  end.

Definition is_str (s : string) (v : pyval) : bool :=
  match v with
  | VStr t => String.eqb s t
  | _ => false
  end.

Fixpoint dict_get (key : string) (kvs : list (string * pyval)) : option pyval :=
  match kvs with
  | [] => None
  | (k, v) :: rest => if String.eqb key k then Some v else dict_get key rest
  end.

(** [key in container] for a [str] key. *)
Definition py_in (key : string) (container : pyval) : res bool :=
  match container with
  | VDict kvs => Ok (bool_decide (is_Some (dict_get key kvs)))
  | VList xs => Ok (existsb (is_str key) xs)
  | VStr s => Ok (str_contains key s)
  | _ => Err TypeError
  end.

(** [container[key]] for a [str] key. *)
Definition py_getitem (container : pyval) (key : string) : res pyval :=
  match container with
  | VDict kvs =>
      match dict_get key kvs with
      | Some v => Ok v
      | None => Err KeyError
      end
  | _ => Err TypeError
  end.

(** [int(x)] on a float read as a rational: truncation towards zero. *)
Definition py_int (x : Q) : Z := Z.quot (Qnum x) (Z.pos (Qden x)).

(** [time.sleep(seconds)] on an [int]: the length is converted to
    nanoseconds in a signed 64-bit integer, so a length beyond
    [sleep_max] seconds either way raises [OverflowError]; a negative
    length that converts raises [ValueError]. *)
Definition sleep_max : Z := 9223372036.

Definition sleep_error (seconds : Z) : option exn :=
  if Z.ltb sleep_max seconds || Z.ltb seconds (- sleep_max) then Some OverflowError
  else if Z.ltb seconds 0 then Some ValueError
  else None.

(** ** Logging *)

Inductive level : Type := DEBUG | INFO | WARNING | ERROR_LEVEL.

(** A record of the logger: level and the fixed part of the message. *)
Definition log_line : Type := (level * string)%type.

(** The record of everything the program does to the outside, newest
    first: log records, calls into the MQTT client, calls into the device
    subclass, sleeps. *)
Inductive action : Type :=
| Log (lvl : level) (msg : string)
| Subscribe (topic : string)                  (* client.subscribe(topic, qos=1) *)
| Publish (topic : string) (message : pyval)  (* mqtt_client.publish(topic, json.dumps(message), qos=1) *)
| Connect (broker : string) (port : Z)        (* mqtt_client.connect(broker, port, keepalive=60) *)
| LoopStart                                   (* mqtt_client.loop_start() *)
| LoopStop                                    (* mqtt_client.loop_stop() *)
| ClientDisconnect                            (* mqtt_client.disconnect() *)
| Generate                                    (* self.generate_telemetry() *)
| HandleCommand (command : pyval)             (* self.handle_command(command) *)
| Sleep (seconds : Z).                        (* time.sleep(seconds) *)

(** ** The schema validator object *)

(** [oid] is the identity of the object ([id(self)]): two validators are
    the same instance when their [oid] agree. *)
Record SchemaValidator : Type := {
  oid : nat;
  schema_dir : string;
  schemas : gmap string pyval
}.

(** The errors of [open(path)] and [json.load] that [_load_schemas]
    has no [except] clause for. *)
Inductive load_error : Type :=
| NoPermission                    (* open raises PermissionError *)
| IsDirectory                     (* open raises IsADirectoryError *)
| NotUtf8                         (* json.load raises UnicodeDecodeError *)
| OtherLoadError (what : string). (* any other exception *)

Definition load_exn (l : load_error) : exn :=
  match l with
  | NoPermission => PermissionError
  | IsDirectory => IsADirectoryError
  | NotUtf8 => UnicodeDecodeError
  | OtherLoadError what => OtherError what
  end.

(** What [open(path)] followed by [json.load] finds at a path. *)
Inductive file : Type :=
| Absent                   (* open raises FileNotFoundError *)
| Denied (l : load_error)  (* open or json.load raises another error *)
| Garbled                  (* json.load raises JSONDecodeError *)
| Holds (doc : pyval).     (* json.load returns doc *)

Definition filesystem : Type := string -> file.

(** The module-level state of [schema_validator.py]: the global
    [_validator], the next free object identity, and the log. *)
Record process : Type := {
  _validator : option SchemaValidator;
  next_oid : nat;
  plog : list log_line
}.

(** ** The device session object *)

Inductive DeviceStatus : Type := ACTIVE | INACTIVE | ERROR | OFFLINE.

Record DeviceConfig : Type := {
  device_id : string;
  device_name : string;
  device_type : string;
  location : string;
  sensor_type : string;
  ca_cert : string;
  client_cert : string;
  client_key : string;
  mqtt_broker : string;
  mqtt_port : Z;
  publish_interval : Z
}.

Record BaseDevice : Type := {
  config : DeviceConfig;
  is_connected : bool;
  status : DeviceStatus;
  state : pyval;
  last_published : gmap string Q;
  last_heartbeat : Q;
  error_count : Z;
  uptime_seconds : Z;
  validator : SchemaValidator
}.

Record world : Type := {
  dev : BaseDevice;
  trace : list action
}.

(** Field assignments [self.f = x]. *)
Definition set_is_connected (b : bool) (d : BaseDevice) : BaseDevice :=
  {| config := config d; is_connected := b; status := status d; state := state d;
     last_published := last_published d; last_heartbeat := last_heartbeat d;
     error_count := error_count d; uptime_seconds := uptime_seconds d;
     validator := validator d |}.

Definition set_status (s : DeviceStatus) (d : BaseDevice) : BaseDevice :=
  {| config := config d; is_connected := is_connected d; status := s; state := state d;
     last_published := last_published d; last_heartbeat := last_heartbeat d;
     error_count := error_count d; uptime_seconds := uptime_seconds d;
     validator := validator d |}.

Definition set_state (v : pyval) (d : BaseDevice) : BaseDevice :=
  {| config := config d; is_connected := is_connected d; status := status d; state := v;
     last_published := last_published d; last_heartbeat := last_heartbeat d;
     error_count := error_count d; uptime_seconds := uptime_seconds d;
     validator := validator d |}.

Definition set_last_published (m : gmap string Q) (d : BaseDevice) : BaseDevice :=
  {| config := config d; is_connected := is_connected d; status := status d; state := state d;
     last_published := m; last_heartbeat := last_heartbeat d;
     error_count := error_count d; uptime_seconds := uptime_seconds d;
     validator := validator d |}.

Definition set_last_heartbeat (t : Q) (d : BaseDevice) : BaseDevice :=
  {| config := config d; is_connected := is_connected d; status := status d; state := state d;
     last_published := last_published d; last_heartbeat := t;
     error_count := error_count d; uptime_seconds := uptime_seconds d;
     validator := validator d |}.

Definition set_error_count (n : Z) (d : BaseDevice) : BaseDevice :=
  {| config := config d; is_connected := is_connected d; status := status d; state := state d;
     last_published := last_published d; last_heartbeat := last_heartbeat d;
     error_count := n; uptime_seconds := uptime_seconds d;
     validator := validator d |}.

Definition set_uptime_seconds (n : Z) (d : BaseDevice) : BaseDevice :=
  {| config := config d; is_connected := is_connected d; status := status d; state := state d;
     last_published := last_published d; last_heartbeat := last_heartbeat d;
     error_count := error_count d; uptime_seconds := n;
     validator := validator d |}.

Definition bump_error_count (d : BaseDevice) : BaseDevice :=
  set_error_count (error_count d + 1) d.

(** ** State and exceptions *)

(** A method body: it reads and writes the session and the trace, and
    either returns or raises.  What it wrote before raising stays written. *)
Definition M (A : Type) : Type := world -> res A * world.

Definition ret {A : Type} (a : A) : M A := fun w => (Ok a, w).

Definition bind {A B : Type} (m : M A) (k : A -> M B) : M B :=
  fun w =>
    match m w with
    | (Ok a, w') => k a w'
    | (Err e, w') => (Err e, w')
    end.

Definition raise {A : Type} (e : exn) : M A := fun w => (Err e, w).

Definition lift {A : Type} (r : res A) : M A := fun w => (r, w).

Definition get_self : M BaseDevice := fun w => (Ok (dev w), w).

Definition assign (f : BaseDevice -> BaseDevice) : M unit :=
  fun w => (Ok tt, {| dev := f (dev w); trace := trace w |}).

Definition emit (a : action) : M unit :=
  fun w => (Ok tt, {| dev := dev w; trace := a :: trace w |}).

(** [try: body except Exception as e: handler(e)]. *)
Definition try_except {A : Type} (body : M A) (handler : exn -> M A) : M A :=
  fun w =>
    match body w with
    | (Ok a, w') => (Ok a, w')
    | (Err e, w') => if is_Exception e then handler e w' else (Err e, w')
    end.

Definition exec {A : Type} (m : M A) (w : world) : world := snd (m w).

Declare Scope py_scope.
Delimit Scope py_scope with py.
Notation "x <- m ;; k" := (bind m (fun x => k))
  (at level 100, m at next level, right associativity) : py_scope.
Notation "m ;;; k" := (bind m (fun _ => k))
  (at level 100, right associativity) : py_scope.
Local Open Scope py_scope.

(** ** Loading the schemas: [SchemaValidator.__init__], [_load_schemas], [get_validator] *)

Definition schema_files : list (string * string) :=
  [ ("telemetry", "telemetry.schema.json");
    ("alert", "alert.schema.json");
    ("command", "command.schema.json") ].

(** [with open(schema_path, 'r') as f: json.load(f)]. *)
Definition open_and_load (fs : filesystem) (schema_path : string) : res pyval :=
  match fs schema_path with
  | Absent => Err FileNotFoundError
  | Denied l => Err (load_exn l)
  | Garbled => Err JSONDecodeError
  | Holds doc => Ok doc
  end.

Definition path_join (dir filename : string) : string := dir ++ "/" ++ filename.

(** One turn of the [for] loop of [_load_schemas]; an exception that
    neither [except] clause names ends the loop and escapes. *)
Definition load_one (fs : filesystem) (dir : string)
    (acc : res (gmap string pyval) * list log_line) (entry : string * string)
    : res (gmap string pyval) * list log_line :=
  match acc with
  | (Err e, lg) => (Err e, lg)
  | (Ok loaded, lg) =>
      match open_and_load fs (path_join dir (snd entry)) with
      | Ok doc => (Ok (<[fst entry := doc]> loaded), (INFO, "Loaded schema") :: lg)
      | Err FileNotFoundError => (Ok loaded, (WARNING, "Schema not found") :: lg)
      | Err JSONDecodeError => (Ok loaded, (ERROR_LEVEL, "Invalid JSON") :: lg)
      | Err e => (Err e, lg)
      end
  end.

Definition _load_schemas (fs : filesystem) (dir : string) (lg : list log_line)
    : res (gmap string pyval) * list log_line :=
  fold_left (load_one fs dir) schema_files (Ok ∅, lg).

Definition default_schema_dir : string := "../../backend/docs/mqtt/schemas".

(** [SchemaValidator(schema_dir)]: a new object, then [_load_schemas]. *)
Definition SchemaValidator_init (fs : filesystem) (dir : string) (p : process)
    : res SchemaValidator * process :=
  let this := next_oid p in
  match _load_schemas fs dir (plog p) with
  | (Ok loaded, lg) =>
      (Ok {| oid := this; schema_dir := dir; schemas := loaded |},
       {| _validator := _validator p; next_oid := S this; plog := lg |})
  | (Err e, lg) =>
      (Err e, {| _validator := _validator p; next_oid := S this; plog := lg |})
  end.

Definition get_validator (fs : filesystem) (p : process) : res SchemaValidator * process :=
  match _validator p with
  | None =>
      match SchemaValidator_init fs default_schema_dir p with
      | (Ok v, p') =>
          (Ok v, {| _validator := Some v; next_oid := next_oid p'; plog := plog p' |})
      | (Err e, p') => (Err e, p')
      end
  | Some v => (Ok v, p)
  end.

(** ** Constructing a session: [BaseDevice.__init__] *)

Definition new_device (cfg : DeviceConfig) (now : Q) (v : SchemaValidator) : BaseDevice :=
  {| config := cfg; is_connected := false; status := INACTIVE; state := VDict [];
     last_published := ∅; last_heartbeat := now; error_count := 0;
     uptime_seconds := 0; validator := v |}.

Definition add_log (l : log_line) (p : process) : process :=
  {| _validator := _validator p; next_oid := next_oid p; plog := l :: plog p |}.

(** [now] is [time.time()]; [tls] is what [mqtt_client.tls_set] does in
    [_setup_mqtt_client], whose handler logs and raises again. *)
Definition BaseDevice_init (cfg : DeviceConfig) (now : Q) (fs : filesystem)
    (tls : res unit) (p : process) : res BaseDevice * process :=
  match get_validator fs p with
  | (Err e, p') => (Err e, p')
  | (Ok v, p') =>
      match tls with
      | Ok _ => (Ok (new_device cfg now v), add_log (INFO, "initialized") p')
      | Err e =>
          if is_Exception e
          then (Err e, add_log (ERROR_LEVEL, "TLS setup failed") p')
          else (Err e, p')
      end
  end.

(** ** What the outside world supplies *)

(** The bytes of an inbound message, by what
    [json.loads(msg.payload.decode('utf-8'))] makes of them. *)
Inductive wire : Type :=
| Undecodable            (* decode raises UnicodeDecodeError *)
| NotJson                (* json.loads raises JSONDecodeError *)
| Json (doc : pyval).    (* json.loads returns doc *)

Definition json_loads (raw : wire) : res pyval :=
  match raw with
  | Undecodable => Err UnicodeDecodeError
  | NotJson => Err JSONDecodeError
  | Json doc => Ok doc
  end.

(** The callbacks the MQTT client makes into the session. *)
Inductive callback : Type :=
| on_connect (rc : Z)
| on_disconnect (rc : Z)
| on_message (topic : string) (payload : wire)
| on_publish (mid : Z).

(** A [time.sleep]: the callbacks that arrive while the caller sleeps, and
    whether a [KeyboardInterrupt] ends the sleep.  The callbacks run on the
    thread of the MQTT client.  They are taken to run while the session
    thread sleeps or between two of its method calls, each one whole; what
    the session thread can see part-way through a connection callback is
    given by [midway]. *)
Record sleep_env : Type := {
  arrivals : list callback;
  interrupted : bool
}.

(** One [publish_telemetry] call: [time.time()] at the envelope,
    [datetime.now()] and [time.time()] after the publish, and what
    [mqtt_client.publish] does (its return value is not looked at). *)
Record publish_env : Type := {
  t_stamp : Q;
  t_published : Q;
  t_heartbeat : Q;
  tx : res unit
}.

(** One [connect] call: what [mqtt_client.connect] does, and the two
    seconds of waiting. *)
Record connect_env : Type := {
  dial : res unit;
  wait : sleep_env
}.

(** One [disconnect] call: what [loop_stop] and [mqtt_client.disconnect] do. *)
Record disconnect_env : Type := {
  stop : res unit;
  hangup : res unit
}.

(** One turn of the loop of [run]: the reading the subclass draws for
    [generate_telemetry], the publish, the transport under
    [update_shadow], the sleep of the [try] body and the sleep of the
    handler. *)
Record iter_env : Type := {
  reading : Z;
  pub : publish_env;
  shadow_tx : res unit;
  nap : sleep_env;
  handler_nap : sleep_env
}.

(** How [run] stands when the script of turns is used up. *)
Inductive loop_end : Type :=
| Exited     (* the [while] condition was false *)
| Pending.   (* the loop is still running *)

(** [a or b] on an optional int: [None] and [0] are falsy. *)
Definition py_or (a : option Z) (b : Z) : Z :=
  match a with
  | Some n => if Z.eqb n 0 then b else n
  | None => b
  end.

(** [d.update(extra)] on dicts: a present key keeps its place. *)
Fixpoint dict_set (key : string) (v : pyval) (kvs : list (string * pyval))
    : list (string * pyval) :=
  match kvs with
  | [] => [(key, v)]
  | (k, old) :: rest =>
      if String.eqb key k then (k, v) :: rest else (k, old) :: dict_set key v rest
  end.

Definition dict_update (kvs extra : list (string * pyval)) : list (string * pyval) :=
  fold_left (fun acc kv => dict_set (fst kv) (snd kv) acc) extra kvs.

(** ["sensor" if "sensor" in self.config.device_type else "actuator"]. *)
Definition classify (cfg : DeviceConfig) : string :=
  if str_contains "sensor" (device_type cfg) then "sensor" else "actuator".

Definition envelope (cfg : DeviceConfig) (now : Q) (payload : pyval) : pyval :=
  VDict [ ("device_id", VStr (device_id cfg));
          ("timestamp", VInt (py_int now));
          ("type", VStr (classify cfg));
          ("payload", payload) ].

Definition telemetry_topic (cfg : DeviceConfig) : string :=
  "devices/" ++ device_id cfg ++ "/telemetry".

Definition alerts_topic (cfg : DeviceConfig) : string :=
  "devices/" ++ device_id cfg ++ "/alerts".

Definition shadow_update_topic (cfg : DeviceConfig) : string :=
  "$aws/things/" ++ device_id cfg ++ "/shadow/update".

Definition shadow_delta_topic (cfg : DeviceConfig) : string :=
  "$aws/things/" ++ device_id cfg ++ "/shadow/update/delta".

(** [{"state": {"reported": reported_state}}]. *)
Definition shadow_update (reported_state : pyval) : pyval :=
  VDict [("state", VDict [("reported", reported_state)])].

Definition status_value (s : DeviceStatus) : string :=
  match s with
  | ACTIVE => "ACTIVE"
  | INACTIVE => "INACTIVE"
  | ERROR => "ERROR"
  | OFFLINE => "OFFLINE"
  end.

Definition get_device_info (self : BaseDevice) : pyval :=
  VDict [ ("device_id", VStr (device_id (config self)));
          ("device_type", VStr (device_type (config self)));
          ("location", VStr (location (config self)));
          ("status", VStr (status_value (status self)));
          ("is_connected", VBool (is_connected self));
          ("error_count", VInt (error_count self));
          ("uptime_seconds", VInt (uptime_seconds self));
          ("state", state self) ].

(** The [Publish] calls recorded in a trace, and the commands handed to
    the subclass. *)
Definition published (tr : list action) : list (string * pyval) :=
  omap (fun a => match a with Publish t m => Some (t, m) | _ => None end) tr.

Definition handled (tr : list action) : list pyval :=
  omap (fun a => match a with HandleCommand c => Some c | _ => None end) tr.

Definition is_LoopStop (a : action) : bool :=
  match a with LoopStop => true | _ => false end.

(** What [disconnect] and the last line of [run] can leave in a trace. *)
Definition is_teardown (a : action) : bool :=
  match a with Log _ _ | ClientDisconnect => true | _ => false end.

(** Log records as they stand in a trace. *)
Definition logs (lines : list log_line) : list action :=
  map (fun l => Log (fst l) (snd l)) lines.

Definition with_trace (tr : list action) (w : world) : world :=
  {| dev := dev w; trace := tr |}.

(** ** Sample surroundings *)

(** Concrete surroundings for the examples: a validator for the
    fragment of JSON Schema made of ["type": "object"] and ["required"],
    three schemas in that fragment, a file system, a device and a
    subclass. *)
Definition required_of (schema : pyval) : list string :=
  match schema with
  | VDict kvs =>
      match dict_get "required" kvs with
      | Some (VList names) =>
          omap (fun n => match n with VStr s => Some s | _ => None end) names
      | _ => []
      end
  | _ => []
  end.

Definition sample_validate (instance schema : pyval) : res unit :=
  match instance with
  | VDict kvs =>
      match List.filter (fun k => negb (bool_decide (is_Some (dict_get k kvs))))
                        (required_of schema) with
      | [] => Ok tt
      | k :: _ => Err (ValidationError "is a required property" [])
      end
  | _ => Err (ValidationError "is not of type 'object'" [])
  end.

Definition sample_schema (required : list string) : pyval :=
  VDict [("type", VStr "object"); ("required", VList (map VStr required))].

Definition telemetry_schema : pyval :=
  sample_schema ["device_id"; "timestamp"; "type"; "payload"].

Definition command_schema : pyval :=
  sample_schema ["request_id"; "action"; "parameters"].

Definition sample_fs : filesystem :=
  fun path =>
    if String.eqb path (path_join default_schema_dir "telemetry.schema.json")
    then Holds telemetry_schema
    else if String.eqb path (path_join default_schema_dir "command.schema.json")
    then Holds command_schema
    else if String.eqb path (path_join default_schema_dir "alert.schema.json")
    then Garbled
    else Absent.

(** The same file system with an [alert.schema.json] whose bytes are
    not UTF-8. *)
Definition latin1_fs : filesystem :=
  fun path =>
    if String.eqb path (path_join default_schema_dir "alert.schema.json")
    then Denied NotUtf8
    else sample_fs path.

Definition sample_validator : SchemaValidator :=
  {| oid := 0; schema_dir := default_schema_dir;
     schemas := <["command" := command_schema]> (<["telemetry" := telemetry_schema]> ∅) |}.

Definition bare_validator : SchemaValidator :=
  {| oid := 0; schema_dir := default_schema_dir; schemas := ∅ |}.

Definition empty_process : process :=
  {| _validator := None; next_oid := 0; plog := [] |}.

Definition device_1 : DeviceConfig :=
  {| device_id := "device-1"; device_name := "Temperature Sensor";
     device_type := "temperature_sensor"; location := "Living Room";
     sensor_type := "temperature_sensor"; ca_cert := "ca.pem";
     client_cert := "cert.pem"; client_key := "key.pem";
     mqtt_broker := "iot.us-east-1.amazonaws.com"; mqtt_port := 8883;
     publish_interval := 5 |}.

(** [{"temperature": 22.5, "unit": "celsius"}]; 22.5 is [45 * 2^-1]. *)
Definition sample_payload : pyval :=
  VDict [("temperature", VFloat 45 (-1)); ("unit", VStr "celsius")].

Definition sample_generate (st : pyval) (draw : Z) : res pyval * pyval :=
  (Ok (VDict [("temperature", VInt draw); ("unit", VStr "celsius")]), st).

Definition failing_generate (st : pyval) (draw : Z) : res pyval * pyval :=
  (Err (OtherError "sensor read failed"), st).

Definition sample_handle (command st : pyval) : res unit * pyval :=
  (Ok tt, VDict [("last_command", command)]).

(** [json.dumps] as CPython 3.11 has it by default, for values that
    are not nested deeply: objects that are not of a JSON type and
    integers of more than 4300 digits are refused. *)
Definition int_max_str_digits : Z := 4300.

Fixpoint sample_dumps_error (v : pyval) : option exn :=
  match v with
  | VObject _ => Some TypeError
  | VInt n => if Z.leb (10 ^ int_max_str_digits) (Z.abs n) then Some ValueError else None
  | VList xs =>
      (fix first (xs : list pyval) : option exn :=
         match xs with
         | [] => None
         | x :: rest =>
             match sample_dumps_error x with
             | Some e => Some e
             | None => first rest
             end
         end) xs
  | VDict kvs =>
      (fix first (kvs : list (string * pyval)) : option exn :=
         match kvs with
         | [] => None
         | kv :: rest =>
             match sample_dumps_error (snd kv) with
             | Some e => Some e
             | None => first rest
             end
         end) kvs
  | _ => None
  end.

Definition quiet : sleep_env := {| arrivals := []; interrupted := false |}.

Definition good_publish (now : Q) : publish_env :=
  {| t_stamp := now; t_published := now; t_heartbeat := now; tx := Ok tt |}.

Definition bad_publish (now : Q) : publish_env :=
  {| t_stamp := now; t_published := now; t_heartbeat := now;
     tx := Err (OtherError "socket closed") |}.

Definition clean_hangup : disconnect_env := {| stop := Ok tt; hangup := Ok tt |}.

Definition device_1_world (v : SchemaValidator) : world :=
  {| dev := new_device device_1 0 v; trace := [] |}.

Definition connected_world (v : SchemaValidator) : world :=
  {| dev := set_status ACTIVE (set_is_connected true (new_device device_1 0 v));
     trace := [] |}.

(** * The infrastructure smoke test ([smoke_test.py]) *)

(** What a call into AWS does: it returns, raises [ClientError], or
    raises something else (no credentials, no network), which nothing in
    the script catches. *)
Inductive aws (A : Type) : Type :=
| Returned (a : A)
| ClientError (e : string)
| OtherFailure (what : string).
Arguments Returned {A} a.
Arguments ClientError {A} e.
Arguments OtherFailure {A} what.

(** The account the script looks at: [describe_table] gives the
    [TableStatus], [describe_endpoint] the [endpointAddress],
    [describe_thing] the [thingId]. *)
Record cloud : Type := {
  describe_table : string -> aws string;
  describe_endpoint : aws string;
  describe_thing : string -> aws string
}.

(** What the script does, in order: the lines it prints (fixed text and
    the values put into it) and the calls it makes. *)
Inductive output : Type :=
| Printed (text : string) (values : list string)
| DescribeTable (table_name : string)
| DescribeEndpoint
| DescribeThing (thing_name : string).

(** How a function of the script ends. *)
Inductive ending (A : Type) : Type :=
| Done (a : A)
| Crashed (what : string).
Arguments Done {A} a.
Arguments Crashed {A} what.

Definition TABLES_TO_CHECK : list string :=
  ["device_telemetry"; "device_state"; "alert_log"; "command_log"].

Definition IOT_THING_NAME : string := "temp-sensor-01".

(** The [for] loop of [check_dynamodb], from the value [all_exist] has
    when it reaches [tables]. *)
Fixpoint check_tables (c : cloud) (tables : list string) (all_exist : bool)
    : ending bool * list output :=
  match tables with
  | [] => (Done all_exist, [])
  | table_name :: rest =>
      match describe_table c table_name with
      | Returned status =>
          let r := check_tables c rest all_exist in
          (fst r,
           DescribeTable table_name :: Printed "Table exists" [table_name; status] :: snd r)
      | ClientError e =>
          let r := check_tables c rest false in
          (fst r,
           DescribeTable table_name :: Printed "Table NOT FOUND" [table_name; e] :: snd r)
      | OtherFailure what => (Crashed what, [DescribeTable table_name])
      end
  end.

Definition check_dynamodb (c : cloud) : ending bool * list output :=
  let r := check_tables c TABLES_TO_CHECK true in
  (fst r, Printed "Checking DynamoDB Tables..." [] :: snd r).

Definition check_iot_core (c : cloud) : ending bool * list output :=
  match describe_endpoint c with
  | Returned address =>
      match describe_thing c IOT_THING_NAME with
      | Returned thing_id =>
          (Done true,
           [ Printed "Checking AWS IoT Core..." []; DescribeEndpoint;
             Printed "IoT Endpoint found" [address]; DescribeThing IOT_THING_NAME;
             Printed "IoT Thing exists" [IOT_THING_NAME; thing_id] ])
      | ClientError e =>
          (Done false,
           [ Printed "Checking AWS IoT Core..." []; DescribeEndpoint;
             Printed "IoT Endpoint found" [address]; DescribeThing IOT_THING_NAME;
             Printed "IoT Check Failed" [e] ])
      | OtherFailure what =>
          (Crashed what,
           [ Printed "Checking AWS IoT Core..." []; DescribeEndpoint;
             Printed "IoT Endpoint found" [address]; DescribeThing IOT_THING_NAME ])
      end
  | ClientError e =>
      (Done false,
       [ Printed "Checking AWS IoT Core..." []; DescribeEndpoint;
         Printed "IoT Check Failed" [e] ])
  | OtherFailure what =>
      (Crashed what, [ Printed "Checking AWS IoT Core..." []; DescribeEndpoint ])
  end.

(** [main]: the exit code given to [sys.exit], or the exception that
    ends the script. *)
Definition main (c : cloud) : ending Z * list output :=
  let banner := Printed "=== Fleexa Infrastructure Smoke Test ===" [] in
  match check_dynamodb c with
  | (Crashed what, out1) => (Crashed what, banner :: out1)
  | (Done db_ok, out1) =>
      match check_iot_core c with
      | (Crashed what, out2) => (Crashed what, banner :: out1 ++ out2)
      | (Done iot_ok, out2) =>
          if db_ok && iot_ok
          then (Done 0,
                banner :: out1 ++ out2
                ++ [Printed "========================================" [];
                    Printed "SMOKE TEST PASSED: Infrastructure is ready." []])
          else (Done 1,
                banner :: out1 ++ out2
                ++ [Printed "========================================" [];
                    Printed "SMOKE TEST FAILED: Issues detected." []])
      end
  end.

(** The tables a run asked about, in order. *)
Definition described (out : list output) : list string :=
  omap (fun o => match o with DescribeTable n => Some n | _ => None end) out.

(** The calls to AWS IoT a run made, in order. *)
Definition iot_calls (out : list output) : list output :=
  List.filter (fun o => match o with DescribeEndpoint | DescribeThing _ => true | _ => false end)
    out.

Definition table_exists (c : cloud) (table_name : string) : bool :=
  match describe_table c table_name with Returned _ => true | _ => false end.

Definition table_crashes (c : cloud) (table_name : string) : bool :=
  match describe_table c table_name with OtherFailure _ => true | _ => false end.

Definition is_returned {A : Type} (r : aws A) : bool :=
  match r with Returned _ => true | _ => false end.

Definition is_other_failure {A : Type} (r : aws A) : bool :=
  match r with OtherFailure _ => true | _ => false end.

(** Two accounts for the examples: one with everything in place, one in
    which the table [alert_log] and the thing are missing. *)
Definition healthy_cloud : cloud :=
  {| describe_table := fun _ => Returned "ACTIVE";
     describe_endpoint := Returned "abc-ats.iot.us-east-1.amazonaws.com";
     describe_thing := fun _ => Returned "thing-1" |}.

Definition degraded_cloud : cloud :=
  {| describe_table := fun n =>
       if String.eqb n "alert_log" then ClientError "ResourceNotFoundException"
       else Returned "ACTIVE";
     describe_endpoint := Returned "abc-ats.iot.us-east-1.amazonaws.com";
     describe_thing := fun _ => ClientError "ResourceNotFoundException" |}.

(** An account the script cannot reach once it gets to [device_state]. *)
Definition unreachable_cloud : cloud :=
  {| describe_table := fun n =>
       if String.eqb n "device_state" then OtherFailure "NoCredentialsError"
       else Returned "ACTIVE";
     describe_endpoint := OtherFailure "NoCredentialsError";
     describe_thing := fun _ => OtherFailure "NoCredentialsError" |}.

(** A validator with all three schemas loaded, and a command. *)
Definition full_validator : SchemaValidator :=
  {| oid := 0; schema_dir := default_schema_dir;
     schemas := <["alert" := telemetry_schema]> (schemas sample_validator) |}.

Definition lock_command : pyval :=
  VDict [ ("request_id", VStr "cmd-1"); ("action", VStr "LOCK");
          ("parameters", VDict [("force", VBool false)]) ].

Definition working_turn : iter_env :=
  {| reading := 21; pub := good_publish 7; shadow_tx := Ok tt;
     nap := quiet; handler_nap := quiet |}.

Section Session.

(** [jsonschema.validate(instance, schema)]: returns, or raises
    [ValidationError], [SchemaError] or anything else. *)
Variable jsonschema_validate : pyval -> pyval -> res unit.

(** [json.dumps(v)]: the exception it raises on [v], if any.  Which
    values it refuses depends on the interpreter: an object that is not
    of a JSON type ([TypeError]), an [int] of more digits than
    [sys.get_int_max_str_digits()] ([ValueError]), a nesting deeper than
    the recursion limit ([RecursionError]). *)
Variable dumps_error : pyval -> option exn.

(** The two abstract methods of the subclass.  They own [self.state]:
    [generate_telemetry] takes the state and the reading it draws,
    [handle_command] the command and the state; each gives its result
    (or the exception it raises) and the state it leaves. *)
Variable generate_telemetry : pyval -> Z -> res pyval * pyval.
Variable handle_command : pyval -> pyval -> res unit * pyval.

(** [json.dumps(v)]: the text is represented by the value it encodes. *)
Definition json_dumps (v : pyval) : res pyval :=
  match dumps_error v with
  | Some e => Err e
  | None => Ok v
  end.

(** ** [SchemaValidator._validate] and its three entry points *)

Definition _validate (self : SchemaValidator) (message : pyval) (schema_name : string)
    : M bool :=
  match schemas self !! schema_name with
  | None => (emit (Log ERROR_LEVEL "Schema not loaded") ;;; ret false)
  | Some schema =>
      try_except
        (lift (jsonschema_validate message schema) ;;;
         emit (Log DEBUG "Valid message") ;;;
         ret true)
        (fun e =>
           match e with
           | ValidationError _ _ =>
               (emit (Log ERROR_LEVEL "Schema validation failed") ;;;
                emit (Log DEBUG "Failed at path") ;;;
                ret false)
           | _ => (emit (Log ERROR_LEVEL "Validation error") ;;; ret false)
           end)
  end.

Definition validate_telemetry (self : SchemaValidator) (message : pyval) : M bool :=
  _validate self message "telemetry".

Definition validate_alert (self : SchemaValidator) (message : pyval) : M bool :=
  _validate self message "alert".

Definition validate_command (self : SchemaValidator) (message : pyval) : M bool :=
  _validate self message "command".

(** What [_validate] returns, without the log it writes. *)
Definition verdict (self : SchemaValidator) (message : pyval) (schema_name : string)
    : res bool :=
  match schemas self !! schema_name with
  | None => Ok false
  | Some schema =>
      match jsonschema_validate message schema with
      | Ok _ => Ok true
      | Err e => if is_Exception e then Ok false else Err e
      end
  end.

(** ** Callbacks *)

Definition _on_connect (rc : Z) : M unit :=
  if Z.eqb rc 0 then
    (self <- get_self ;;
     emit (Log INFO "connected to AWS IoT Core") ;;;
     assign (set_is_connected true) ;;;
     assign (set_status ACTIVE) ;;;
     assign (set_error_count 0) ;;;
     emit (Subscribe (shadow_delta_topic (config self))) ;;;
     emit (Log DEBUG "Subscribed"))
  else
    (emit (Log ERROR_LEVEL "Connection failed") ;;;
     assign (set_status ERROR) ;;;
     assign bump_error_count).

Definition _on_disconnect (rc : Z) : M unit :=
  (if Z.eqb rc 0 then ret tt else emit (Log WARNING "Unexpected disconnection")) ;;;
  assign (set_is_connected false) ;;;
  assign (set_status OFFLINE) ;;;
  emit (Log INFO "disconnected").

(** The call [self.handle_command(command)] into the subclass. *)
Definition call_handle_command (command : pyval) : M unit :=
  self <- get_self ;;
  emit (HandleCommand command) ;;;
  assign (set_state (snd (handle_command command (state self)))) ;;;
  lift (fst (handle_command command (state self))).

Definition _on_message (topic : string) (raw : wire) : M unit :=
  try_except
    (payload <- lift (json_loads raw) ;;
     emit (Log DEBUG "Message received") ;;;
     has_state <- lift (py_in "state" payload) ;;
     if has_state : bool then
       (desired_state <- lift (py_getitem payload "state") ;;
        self <- get_self ;;
        ok <- validate_command (validator self) desired_state ;;
        if ok : bool then call_handle_command desired_state
        else emit (Log ERROR_LEVEL "Invalid command format"))
     else ret tt)
    (fun e =>
       match e with
       | JSONDecodeError => emit (Log ERROR_LEVEL "JSON decode error")
       | _ => emit (Log ERROR_LEVEL "Message handling error")
       end).

Definition _on_publish (mid : Z) : M unit :=
  emit (Log DEBUG "Message published").

Definition dispatch (cb : callback) : M unit :=
  match cb with
  | on_connect rc => _on_connect rc
  | on_disconnect rc => _on_disconnect rc
  | on_message topic payload => _on_message topic payload
  | on_publish mid => _on_publish mid
  end.

(** The callbacks run on the thread of the MQTT client: what one of them
    raises does not reach the caller that sleeps. *)
Definition deliver (cbs : list callback) : M unit :=
  fun w => (Ok tt, fold_left (fun w' cb => exec (dispatch cb) w') cbs w).

(** [time.sleep(seconds)]: a length it refuses raises before any
    sleeping is done. *)
Definition time_sleep (seconds : Z) (env : sleep_env) : M unit :=
  match sleep_error seconds with
  | Some e => raise e
  | None =>
      (emit (Sleep seconds) ;;;
       deliver (arrivals env) ;;;
       if interrupted env then raise KeyboardInterrupt else ret tt)
  end.

(** ** [connect] and [disconnect] *)

Definition connect (env : connect_env) : M unit :=
  try_except
    (self <- get_self ;;
     emit (Log INFO "Connecting") ;;;
     emit (Connect (mqtt_broker (config self)) (mqtt_port (config self))) ;;;
     lift (dial env) ;;;
     emit LoopStart ;;;
     time_sleep 2 (wait env) ;;;
     now <- get_self ;;
     if is_connected now then emit (Log INFO "ready for telemetry")
     else raise ConnectionFailed)
    (fun e =>
       emit (Log ERROR_LEVEL "Connection error") ;;;
       assign (set_status ERROR) ;;;
       raise e).

Definition disconnect (env : disconnect_env) : M unit :=
  try_except
    (emit LoopStop ;;;
     lift (stop env) ;;;
     emit ClientDisconnect ;;;
     lift (hangup env) ;;;
     emit (Log INFO "disconnected gracefully"))
    (fun e => emit (Log ERROR_LEVEL "Disconnection error")).

(** ** Publishing *)

Definition publish_telemetry (env : publish_env) (telemetry_payload : pyval) : M unit :=
  try_except
    (self <- get_self ;;
     let topic := telemetry_topic (config self) in
     let message := envelope (config self) (t_stamp env) telemetry_payload in
     ok <- validate_telemetry (validator self) message ;;
     if negb ok then emit (Log ERROR_LEVEL "Telemetry validation failed")
     else
       (payload_json <- lift (json_dumps message) ;;
        emit (Publish topic payload_json) ;;;
        lift (tx env) ;;;
        assign (fun d => set_last_published (<[topic := t_published env]> (last_published d)) d) ;;;
        assign (set_last_heartbeat (t_heartbeat env)) ;;;
        assign (fun d => set_uptime_seconds (uptime_seconds d + publish_interval (config d)) d) ;;;
        emit (Log DEBUG "Telemetry published")))
    (fun e => emit (Log ERROR_LEVEL "Publish error") ;;; assign bump_error_count).

(** [additional_data] is [None] or a dict; an empty dict is falsy. *)
Definition publish_alert (now : Q) (transport : res unit) (alert_status severity : string)
    (additional_data : option (list (string * pyval))) : M unit :=
  try_except
    (self <- get_self ;;
     let topic := alerts_topic (config self) in
     let base := [("status", VStr alert_status); ("severity", VStr severity)] in
     let alert_payload :=
       match additional_data with
       | Some (kv :: more) => dict_update base (kv :: more)
       | _ => base
       end in
     let message := envelope (config self) now (VDict alert_payload) in
     ok <- validate_alert (validator self) message ;;
     if negb ok then emit (Log ERROR_LEVEL "Alert validation failed")
     else
       (payload_json <- lift (json_dumps message) ;;
        emit (Publish topic payload_json) ;;;
        lift transport ;;;
        emit (Log INFO "Alert published")))
    (fun e => emit (Log ERROR_LEVEL "Alert publish error")).

Definition update_shadow (transport : res unit) (reported_state : pyval) : M unit :=
  try_except
    (self <- get_self ;;
     let topic := shadow_update_topic (config self) in
     payload <- lift (json_dumps (shadow_update reported_state)) ;;
     emit (Publish topic payload) ;;;
     lift transport ;;;
     emit (Log DEBUG "Shadow updated"))
    (fun e => emit (Log ERROR_LEVEL "Shadow update error")).

(** ** The telemetry loop: [run] *)

(** The call [self.generate_telemetry()] into the subclass. *)
Definition call_generate_telemetry (draw : Z) : M pyval :=
  self <- get_self ;;
  emit Generate ;;;
  assign (set_state (snd (generate_telemetry (state self) draw))) ;;;
  lift (fst (generate_telemetry (state self) draw)).

(** The [try] body of one turn. *)
Definition loop_body (interval : Z) (env : iter_env) : M unit :=
  telemetry <- call_generate_telemetry (reading env) ;;
  publish_telemetry (pub env) telemetry ;;;
  self <- get_self ;;
  update_shadow (shadow_tx env) (state self) ;;;
  time_sleep interval (nap env).

(** The [except Exception] clause of one turn. *)
Definition loop_handler (interval : Z) (env : iter_env) (e : exn) : M unit :=
  emit (Log ERROR_LEVEL "Error in main loop") ;;;
  assign bump_error_count ;;;
  time_sleep interval (handler_nap env).

Definition iteration (interval : Z) (env : iter_env) : M unit :=
  try_except (loop_body interval env) (loop_handler interval env).

(** [while self.is_connected: ...], one element of [script] per turn. *)
Fixpoint run_loop (interval : Z) (script : list iter_env) (w : world) {struct script}
    : res loop_end * world :=
  if is_connected (dev w) then
    match script with
    | [] => (Ok Pending, w)
    | env :: rest =>
        match iteration interval env w with
        | (Ok _, w') => run_loop interval rest w'
        | (Err e, w') => (Err e, w')
        end
    end
  else (Ok Exited, w).

(** The [finally] clause of [run]. *)
Definition run_finally (fin : disconnect_env) : M loop_end :=
  disconnect fin ;;;
  emit (Log INFO "stopped") ;;;
  ret Exited.

Definition run (interval_override : option Z) (script : list iter_env)
    (fin : disconnect_env) : M loop_end :=
  fun w =>
    let interval := py_or interval_override (publish_interval (config (dev w))) in
    match (emit (Log INFO "started") ;;; run_loop interval script) w with
    | (Ok Pending, w') => (Ok Pending, w')
    | (Ok Exited, w') => run_finally fin w'
    | (Err KeyboardInterrupt, w') =>
        (emit (Log INFO "Shutdown signal received") ;;; run_finally fin) w'
    | (Err _, w') =>
        (emit (Log ERROR_LEVEL "Fatal error") ;;; run_finally fin) w'
    end.

(** ** Sessions as sequences of events *)

Inductive event : Type :=
| EvCallback (cb : callback)
| EvConnect (env : connect_env)
| EvDisconnect (env : disconnect_env)
| EvPublishTelemetry (env : publish_env) (payload : pyval)
| EvPublishAlert (now : Q) (transport : res unit) (alert_status severity : string)
    (additional_data : option (list (string * pyval)))
| EvUpdateShadow (transport : res unit) (reported_state : pyval)
| EvRun (interval_override : option Z) (script : list iter_env) (fin : disconnect_env).

Definition step (ev : event) (w : world) : world :=
  match ev with
  | EvCallback cb => exec (dispatch cb) w
  | EvConnect env => exec (connect env) w
  | EvDisconnect env => exec (disconnect env) w
  | EvPublishTelemetry env payload => exec (publish_telemetry env payload) w
  | EvPublishAlert now transport alert_status severity additional_data =>
      exec (publish_alert now transport alert_status severity additional_data) w
  | EvUpdateShadow transport reported_state =>
      exec (update_shadow transport reported_state) w
  | EvRun interval_override script fin => exec (run interval_override script fin) w
  end.

Definition steps (evs : list event) (w : world) : world :=
  fold_left (fun w' ev => step ev w') evs w.

(** A successful connect acknowledgment. *)
Definition is_ack (cb : callback) : bool :=
  match cb with
  | on_connect rc => Z.eqb rc 0
  | _ => false
  end.

(** Whether every callback that arrives inside an event satisfies [ok]. *)
Definition sleep_all (ok : callback -> bool) (s : sleep_env) : bool :=
  forallb ok (arrivals s).

Definition event_all (ok : callback -> bool) (ev : event) : bool :=
  match ev with
  | EvCallback cb => ok cb
  | EvConnect env => sleep_all ok (wait env)
  | EvRun _ script _ =>
      forallb (fun it => sleep_all ok (nap it) && sleep_all ok (handler_nap it)) script
  | _ => true
  end.

(** A session right after [BaseDevice.__init__]. *)
Definition new_session (cfg : DeviceConfig) (now : Q) (v : SchemaValidator) : world :=
  {| dev := new_device cfg now v; trace := [] |}.

(** The states a session can be in between two events, that is, when
    no callback and no method is part-way through. *)
Definition reachable (w : world) : Prop :=
  exists cfg now v evs, w = steps evs (new_session cfg now v).


(** The status rule as the specification words it, with [error_count]
    (zero at every successful connect, one more for every recorded
    error) counting the errors since the last successful connect. *)
Definition status_derivation_rule (d : BaseDevice) : Prop :=
  (status d = ACTIVE <-> is_connected d = true /\ error_count d = 0)
  /\ (is_connected d = true -> 0 < error_count d -> status d = ERROR)
  /\ (is_connected d = false -> status d = OFFLINE \/ status d = INACTIVE).

(** What the code keeps true of [status] and [is_connected]. *)
Definition status_invariant (d : BaseDevice) : Prop :=
  (status d = ACTIVE -> is_connected d = true)
  /\ (status d = OFFLINE -> is_connected d = false)
  /\ (status d = INACTIVE -> is_connected d = false).

Definition any_callback (cb : callback) : bool := true.

(** A relation between the session before and after a method body that
    every step of the body respects. *)
Definition keeps {A : Type} (R : BaseDevice -> BaseDevice -> Prop) (m : M A) : Prop :=
  forall w, R (dev w) (dev (snd (m w))).

(** [error_count] does not go down. *)
Definition error_count_le (d d' : BaseDevice) : Prop :=
  error_count d <= error_count d'.

Definition not_ack (cb : callback) : bool := negb (is_ack cb).

(** [status] and [is_connected] are as they were. *)
Definition same_status (d d' : BaseDevice) : Prop :=
  status d' = status d /\ is_connected d' = is_connected d.

(** A callback that is neither a connect acknowledgment nor a
    disconnect. *)
Definition not_connection (cb : callback) : bool :=
  match cb with
  | on_connect _ | on_disconnect _ => false
  | _ => true
  end.

(** The session object as a callback leaves it between two of its
    writes, in the order of the assignments of [_on_connect] and
    [_on_disconnect].  The callbacks run on the thread of the MQTT
    client and take no lock, so the session thread can meet these
    states. *)
Definition midway (cb : callback) (d : BaseDevice) : list BaseDevice :=
  match cb with
  | on_connect rc =>
      if Z.eqb rc 0
      then [set_is_connected true d; set_status ACTIVE (set_is_connected true d)]
      else [set_status ERROR d]
  | on_disconnect rc => [set_is_connected false d]
  | _ => []
  end.

Definition not_LoopStop (a : action) : bool := negb (is_LoopStop a).

(** A method body that only adds to the trace, and never a [LoopStop]. *)
Definition adds_no_stop {A : Type} (m : M A) : Prop :=
  forall w, exists new,
    trace (snd (m w)) = (new ++ trace w)%list /\ forallb not_LoopStop new = true.

(** The ["state"] entry [_on_message] takes out of an inbound message:
    there is one when the bytes decode to a dict that has the key. *)
Definition extract_state (raw : wire) : option pyval :=
  match raw with
  | Json (VDict kvs) => dict_get "state" kvs
  | _ => None
  end.

(** The dict [publish_alert] sends as payload: status and severity,
    updated with the additional data when there is some. *)
Definition alert_payload_of (alert_status severity : string)
    (additional_data : option (list (string * pyval))) : list (string * pyval) :=
  dict_update [("status", VStr alert_status); ("severity", VStr severity)]
    (default [] additional_data).

(** What a session of a device with configuration [cfg] and validator
    [v] may do to the outside: publish a message [json.dumps] accepted
    that is a
    validated telemetry envelope on the telemetry topic, a validated alert
    envelope on the alerts topic, or a shadow report on the shadow topic;
    hand a validated command to the subclass; subscribe to its own shadow
    delta topic; connect to its own broker. *)
Definition permitted (v : SchemaValidator) (cfg : DeviceConfig) (a : action) : Prop :=
  match a with
  | Publish topic message =>
      dumps_error message = None
      /\ ((topic = telemetry_topic cfg /\ verdict v message "telemetry" = Ok true)
          \/ (topic = alerts_topic cfg /\ verdict v message "alert" = Ok true)
          \/ (topic = shadow_update_topic cfg
              /\ exists s, message = VDict [("state", VDict [("reported", s)])]))
  | HandleCommand command => verdict v command "command" = Ok true
  | Subscribe topic => topic = shadow_delta_topic cfg
  | Connect broker port => broker = mqtt_broker cfg /\ port = mqtt_port cfg
  | _ => True
  end.

(** What stays true of the session object. *)
Definition session_inv (v : SchemaValidator) (cfg : DeviceConfig) (d : BaseDevice) : Prop :=
  validator d = v
  /\ config d = cfg
  /\ 0 <= error_count d
  /\ (0 <= publish_interval cfg -> 0 <= uptime_seconds d)
  /\ (forall topic, is_Some (last_published d !! topic) -> topic = telemetry_topic cfg).

(** A method body that keeps [session_inv] and adds only [permitted]
    actions to the trace. *)
Definition sound (v : SchemaValidator) (cfg : DeviceConfig) {A : Type} (m : M A) : Prop :=
  forall w,
    session_inv v cfg (dev w) ->
    session_inv v cfg (dev (snd (m w)))
    /\ exists new, trace (snd (m w)) = (new ++ trace w)%list
                   /\ Forall (permitted v cfg) new.

(** * Properties *)

(** ** Strings and numbers *)

Lemma prefix_split (p s : string) :
  String.prefix p s = true <-> exists post, s = p ++ post.
Proof.
  revert s. induction p as [|a p IH]; intros s; simpl.
  - split; [intros _; exists s; reflexivity | intros _; destruct s; reflexivity].
  - destruct s as [|b s].
    + split; [discriminate | intros [post H]; discriminate].
    + simpl. destruct (Ascii.ascii_dec a b) as [->|Hne].
      * rewrite IH. split; intros [post H]; exists post.
        -- simpl. now rewrite H.
        -- simpl in H. now inversion H.
      * split; [discriminate | intros [post H]; simpl in H; inversion H; congruence].
Qed.

Lemma str_contains_nil (needle : string) :
  str_contains needle "" = String.prefix needle "".
Proof. unfold str_contains. apply orb_false_r. Qed.

Lemma str_contains_cons (needle : string) (c : Ascii.ascii) (hay : string) :
  str_contains needle (String c hay)
  = String.prefix needle (String c hay) || str_contains needle hay.
Proof. reflexivity. Qed.

(** [str_contains] is Python's [in] on strings: the needle occurs
    somewhere in the haystack. *)
Lemma str_contains_spec (needle hay : string) :
  str_contains needle hay = true <-> exists pre post, hay = pre ++ needle ++ post.
Proof.
  induction hay as [|c hay IH].
  - rewrite str_contains_nil, prefix_split. split.
    + intros [post H]. exists "", post. exact H.
    + intros [pre [post H]]. destruct pre; simpl in H; [exists post; exact H | discriminate].
  - rewrite str_contains_cons, orb_true_iff, prefix_split, IH. split.
    + intros [[post H] | [pre [post H]]].
      * exists "", post. exact H.
      * exists (String c pre), post. simpl. now rewrite H.
    + intros [pre [post H]]. destruct pre as [|d pre]; simpl in H.
      * left. exists post. exact H.
      * right. inversion H. exists pre, post. reflexivity.
Qed.

(** [int(x)] of a non-negative clock reading is the whole second it
    falls in. *)
Lemma py_int_floor (x : Q) :
  (0 <= x)%Q -> (inject_Z (py_int x) <= x)%Q /\ (x < inject_Z (py_int x) + 1)%Q.
Proof.
  destruct x as [n d]. unfold py_int, Qle, Qlt, inject_Z. simpl.
  intros Hn. rewrite Z.mul_1_r in Hn.
  rewrite Z.quot_div_nonneg by lia.
  pose proof (Z.mul_div_le n (Z.pos d) ltac:(lia)).
  pose proof (Z.mul_succ_div_gt n (Z.pos d) ltac:(lia)).
  split; nia.
Qed.

(** ** The monad *)

Lemma bind_ok {A B : Type} (m : M A) (k : A -> M B) (w w' : world) (a : A) :
  m w = (Ok a, w') -> bind m k w = k a w'.
Proof. intros H. unfold bind. now rewrite H. Qed.

Lemma bind_err {A B : Type} (m : M A) (k : A -> M B) (w w' : world) (e : exn) :
  m w = (Err e, w') -> bind m k w = (Err e, w').
Proof. intros H. unfold bind. now rewrite H. Qed.

Section Keeps.
Variable R : BaseDevice -> BaseDevice -> Prop.
Hypothesis R_refl : forall d, R d d.
Hypothesis R_trans : forall a b c, R a b -> R b c -> R a c.

Lemma keeps_ret {A : Type} (a : A) : keeps R (ret a).
Proof. intros w. apply R_refl. Qed.

Lemma keeps_raise {A : Type} (e : exn) : keeps R (@raise A e).
Proof. intros w. apply R_refl. Qed.

Lemma keeps_lift {A : Type} (r : res A) : keeps R (lift r).
Proof. intros w. apply R_refl. Qed.

Lemma keeps_get_self : keeps R get_self.
Proof. intros w. apply R_refl. Qed.

Lemma keeps_emit (a : action) : keeps R (emit a).
Proof. intros w. apply R_refl. Qed.

Lemma keeps_assign (f : BaseDevice -> BaseDevice) :
  (forall d, R d (f d)) -> keeps R (assign f).
Proof. intros H w. apply H. Qed.

Lemma keeps_bind {A B : Type} (m : M A) (k : A -> M B) :
  keeps R m -> (forall a, keeps R (k a)) -> keeps R (bind m k).
Proof.
  intros Hm Hk w. unfold bind. specialize (Hm w).
  destruct (m w) as [[a|e] w']; simpl in *; [|exact Hm].
  eapply R_trans; [exact Hm | apply Hk].
Qed.

Lemma keeps_try_except {A : Type} (body : M A) (handler : exn -> M A) :
  keeps R body -> (forall e, keeps R (handler e)) -> keeps R (try_except body handler).
Proof.
  intros Hb Hh w. unfold try_except. specialize (Hb w).
  destruct (body w) as [[a|e] w']; simpl in *; [exact Hb|].
  destruct (is_Exception e); simpl; [|exact Hb].
  eapply R_trans; [exact Hb | apply Hh].
Qed.

Lemma keeps_if {A : Type} (b : bool) (m1 m2 : M A) :
  keeps R m1 -> keeps R m2 -> keeps R (if b then m1 else m2).
Proof. destruct b; auto. Qed.
End Keeps.

(** ** Traces *)

Lemma published_logs (lines : list log_line) (tr : list action) :
  published (logs lines ++ tr) = published tr.
Proof. induction lines as [|l lines IH]; simpl; auto. Qed.

Lemma handled_logs (lines : list log_line) (tr : list action) :
  handled (logs lines ++ tr) = handled tr.
Proof. induction lines as [|l lines IH]; simpl; auto. Qed.

(** ** Loading *)

Lemma load_schemas_lookup (fs : filesystem) (dir : string) (lg lg' : list log_line)
    (loaded : gmap string pyval) (name filename : string) :
  _load_schemas fs dir lg = (Ok loaded, lg') ->
  (name, filename) ∈ schema_files ->
  loaded !! name = match fs (path_join dir filename) with
                   | Holds doc => Some doc
                   | _ => None
                   end.
Proof.
  intros Hload Hin. unfold schema_files in Hin.
  unfold _load_schemas, schema_files, load_one, open_and_load in Hload.
  simpl in Hload.
  repeat (apply elem_of_cons in Hin as [Hin|Hin]; [inversion Hin; subst; clear Hin|]);
    [ | | | inversion Hin];
    destruct (fs (path_join dir "telemetry.schema.json")) as [|[]| |];
    destruct (fs (path_join dir "alert.schema.json")) as [|[]| |];
    destruct (fs (path_join dir "command.schema.json")) as [|[]| |];
    simpl in Hload; inversion Hload; subst; clear Hload;
    simplify_map_eq; reflexivity.
Qed.

Lemma load_schemas_other (fs : filesystem) (dir : string) (lg lg' : list log_line)
    (loaded : gmap string pyval) (name : string) :
  _load_schemas fs dir lg = (Ok loaded, lg') ->
  name <> "telemetry" -> name <> "alert" -> name <> "command" ->
  loaded !! name = None.
Proof.
  intros Hload H1 H2 H3.
  unfold _load_schemas, schema_files, load_one, open_and_load in Hload.
  simpl in Hload.
  destruct (fs (path_join dir "telemetry.schema.json")) as [|[]| |];
    destruct (fs (path_join dir "alert.schema.json")) as [|[]| |];
    destruct (fs (path_join dir "command.schema.json")) as [|[]| |];
    simpl in Hload; inversion Hload; subst; clear Hload;
    simplify_map_eq; reflexivity.
Qed.

Ltac in_schema_files :=
  unfold schema_files;
  repeat first [ apply elem_of_cons; left; reflexivity | apply elem_of_cons; right ].

Lemma load_one_denied (fs : filesystem) (dir : string) (loaded : gmap string pyval)
    (lg : list log_line) (entry : string * string) (l : load_error) :
  fs (path_join dir (snd entry)) = Denied l ->
  load_one fs dir (Ok loaded, lg) entry = (Err (load_exn l), lg).
Proof. intros H. unfold load_one, open_and_load. rewrite H. destruct l; reflexivity. Qed.

(** [_load_schemas] raises exactly when one of the three files gives an
    error it has no [except] clause for, and what it raises is the error
    of such a file. *)
Lemma load_schemas_outcome (fs : filesystem) (dir : string) (lg : list log_line) :
  match fst (_load_schemas fs dir lg) with
  | Ok _ =>
      forall name filename l,
        (name, filename) ∈ schema_files -> fs (path_join dir filename) <> Denied l
  | Err e =>
      exists name filename l,
        (name, filename) ∈ schema_files
        /\ fs (path_join dir filename) = Denied l /\ e = load_exn l
  end.
Proof.
  unfold _load_schemas, schema_files, load_one, open_and_load. simpl.
  destruct (fs (path_join dir "telemetry.schema.json")) as [|l1| |d1] eqn:F1;
    destruct (fs (path_join dir "alert.schema.json")) as [|l2| |d2] eqn:F2;
    destruct (fs (path_join dir "command.schema.json")) as [|l3| |d3] eqn:F3;
    try destruct l1; try destruct l2; try destruct l3; simpl;
    first
      [ intros name filename l Hin Hd; unfold schema_files in Hin;
        repeat (apply elem_of_cons in Hin as [Hin|Hin];
                [inversion Hin; subst; congruence|]);
        inversion Hin
      | exists "telemetry", "telemetry.schema.json"; eexists;
        split; [in_schema_files | split; [exact F1 | reflexivity]]
      | exists "alert", "alert.schema.json"; eexists;
        split; [in_schema_files | split; [exact F2 | reflexivity]]
      | exists "command", "command.schema.json"; eexists;
        split; [in_schema_files | split; [exact F3 | reflexivity]] ].
Qed.

Lemma init_schemas (fs : filesystem) (dir : string) (p p' : process)
    (v : SchemaValidator) :
  SchemaValidator_init fs dir p = (Ok v, p') ->
  exists lg', _load_schemas fs dir (plog p) = (Ok (schemas v), lg')
              /\ oid v = next_oid p /\ next_oid p' = S (next_oid p)
              /\ _validator p' = _validator p.
Proof.
  unfold SchemaValidator_init. intros H.
  destruct (_load_schemas fs dir (plog p)) as [[loaded|e] lg']; inversion H; subst.
  exists lg'. simpl. auto.
Qed.

(** ** Validation *)

(** [_validate] writes log records and nothing else, and what it
    returns is [verdict]. *)
Lemma validate_run (self : SchemaValidator) (message : pyval) (schema_name : string)
    (w : world) :
  exists lines,
    _validate self message schema_name w
    = (verdict self message schema_name, with_trace (logs lines ++ trace w) w).
Proof.
  unfold _validate, verdict.
  destruct (schemas self !! schema_name) as [schema|].
  - unfold try_except, bind, lift, emit, ret.
    destruct (jsonschema_validate message schema) as [[]|e].
    + exists [(DEBUG, "Valid message")]. reflexivity.
    + destruct (is_Exception e) eqn:He.
      * destruct e; try discriminate He;
          try (exists [(ERROR_LEVEL, "Validation error")]; reflexivity).
        exists [(DEBUG, "Failed at path"); (ERROR_LEVEL, "Schema validation failed")].
        reflexivity.
      * exists []. destruct w. reflexivity.
  - exists [(ERROR_LEVEL, "Schema not loaded")]. reflexivity.
Qed.

Lemma validate_fst (self : SchemaValidator) (message : pyval) (schema_name : string)
    (w : world) :
  fst (_validate self message schema_name w) = verdict self message schema_name.
Proof. destruct (validate_run self message schema_name w) as [l ->]. reflexivity. Qed.

(** X21.  For a validator that [SchemaValidator(schema_dir)]
    built, and a [jsonschema] library that raises only [Exception]s:
    [_validate] always returns a bool, never raises; none of the three
    schema files met an error other than [FileNotFoundError] and
    [JSONDecodeError] (such an error would have ended the construction);
    a schema whose file is missing or is not JSON is absent from the
    validator, and a schema whose file holds a document is that
    document; validating against an absent schema returns [False]; a
    message the library rejects (for any reason) gives [False]; and
    [True] is returned only when the schema is loaded and the library
    accepted the message. *)
Theorem validate_fails_closed (fs : filesystem) (dir : string) (p p' : process)
    (v : SchemaValidator) (message : pyval) (schema_name : string) (w : world) :
  SchemaValidator_init fs dir p = (Ok v, p') ->
  (forall schema e, jsonschema_validate message schema = Err e -> is_Exception e = true) ->
  (exists b, fst (_validate v message schema_name w) = Ok b)
  /\ (forall name filename l,
        (name, filename) ∈ schema_files -> fs (path_join dir filename) <> Denied l)
  /\ (forall filename,
        (schema_name, filename) ∈ schema_files ->
        fs (path_join dir filename) = Absent \/ fs (path_join dir filename) = Garbled ->
        schemas v !! schema_name = None)
  /\ (forall filename doc,
        (schema_name, filename) ∈ schema_files ->
        fs (path_join dir filename) = Holds doc ->
        schemas v !! schema_name = Some doc)
  /\ (schemas v !! schema_name = None ->
      fst (_validate v message schema_name w) = Ok false)
  /\ (forall schema e,
        schemas v !! schema_name = Some schema ->
        jsonschema_validate message schema = Err e ->
        fst (_validate v message schema_name w) = Ok false)
  /\ (fst (_validate v message schema_name w) = Ok true ->
      exists schema, schemas v !! schema_name = Some schema
                     /\ jsonschema_validate message schema = Ok tt).
Proof.
  intros Hinit Hlib. rewrite validate_fst. unfold verdict.
  destruct (init_schemas _ _ _ _ _ Hinit) as [lg' [Hload _]].
  split; [|split; [|split; [|split; [|split; [|split]]]]].
  - destruct (schemas v !! schema_name) as [schema|]; [|eauto].
    destruct (jsonschema_validate message schema) as [[]|e] eqn:Hv; [eauto|].
    rewrite (Hlib _ _ Hv). eauto.
  - pose proof (load_schemas_outcome fs dir (plog p)) as Hout.
    rewrite Hload in Hout. exact Hout.
  - intros filename Hin Hfile.
    rewrite (load_schemas_lookup _ _ _ _ _ _ _ Hload Hin).
    destruct Hfile as [-> | ->]; reflexivity.
  - intros filename doc Hin Hfile.
    rewrite (load_schemas_lookup _ _ _ _ _ _ _ Hload Hin), Hfile. reflexivity.
  - intros ->. reflexivity.
  - intros schema e -> Hv. rewrite Hv, (Hlib _ _ Hv). reflexivity.
  - destruct (schemas v !! schema_name) as [schema|]; [|discriminate].
    destruct (jsonschema_validate message schema) as [[]|e] eqn:Hv.
    + eauto.
    + destruct (is_Exception e); discriminate.
Qed.

(** ** [publish_telemetry], case by case *)

Ltac run_validate :=
  match goal with
  | |- context [_validate ?s ?m ?n ?w] =>
      let lines := fresh "lines" in
      let H := fresh "Hrun" in
      destruct (validate_run s m n w) as [lines H]; rewrite H; clear H
  end.

Lemma publish_invalid (env : publish_env) (payload : pyval) (w : world) :
  verdict (validator (dev w)) (envelope (config (dev w)) (t_stamp env) payload) "telemetry"
  = Ok false ->
  exists lines,
    publish_telemetry env payload w = (Ok tt, with_trace (logs lines ++ trace w) w).
Proof.
  intros Hv. unfold publish_telemetry, try_except, bind, get_self, validate_telemetry.
  run_validate. rewrite Hv. simpl.
  exists ((ERROR_LEVEL, "Telemetry validation failed") :: lines). reflexivity.
Qed.

Lemma publish_dumps_raises (env : publish_env) (payload : pyval) (w : world) (e : exn) :
  let message := envelope (config (dev w)) (t_stamp env) payload in
  verdict (validator (dev w)) message "telemetry" = Ok true ->
  dumps_error message = Some e -> is_Exception e = true ->
  exists lines,
    publish_telemetry env payload w
    = (Ok tt, {| dev := bump_error_count (dev w);
                 trace := Log ERROR_LEVEL "Publish error" :: logs lines ++ trace w |}).
Proof.
  intros message Hv Hs He.
  unfold publish_telemetry, try_except, bind, get_self, validate_telemetry.
  run_validate. fold message. rewrite Hv. simpl. unfold lift, json_dumps.
  fold message. rewrite Hs. simpl. rewrite He. simpl.
  exists lines. reflexivity.
Qed.

Lemma publish_tx_raises (env : publish_env) (payload : pyval) (w : world) (e : exn) :
  let message := envelope (config (dev w)) (t_stamp env) payload in
  verdict (validator (dev w)) message "telemetry" = Ok true ->
  dumps_error message = None ->
  tx env = Err e -> is_Exception e = true ->
  exists lines,
    publish_telemetry env payload w
    = (Ok tt, {| dev := bump_error_count (dev w);
                 trace := Log ERROR_LEVEL "Publish error"
                          :: Publish (telemetry_topic (config (dev w))) message
                          :: logs lines ++ trace w |}).
Proof.
  intros message Hv Hs Htx He.
  unfold publish_telemetry, try_except, bind, get_self, validate_telemetry.
  run_validate. fold message. rewrite Hv. simpl. unfold lift, json_dumps.
  fold message. rewrite Hs. simpl. rewrite Htx, He. simpl.
  exists lines. reflexivity.
Qed.

Lemma publish_tx_interrupted (env : publish_env) (payload : pyval) (w : world) (e : exn) :
  let message := envelope (config (dev w)) (t_stamp env) payload in
  verdict (validator (dev w)) message "telemetry" = Ok true ->
  dumps_error message = None ->
  tx env = Err e -> is_Exception e = false ->
  exists lines,
    publish_telemetry env payload w
    = (Err e, {| dev := dev w;
                 trace := Publish (telemetry_topic (config (dev w))) message
                          :: logs lines ++ trace w |}).
Proof.
  intros message Hv Hs Htx He.
  unfold publish_telemetry, try_except, bind, get_self, validate_telemetry.
  run_validate. fold message. rewrite Hv. simpl. unfold lift, json_dumps.
  fold message. rewrite Hs. simpl. rewrite Htx, He.
  exists lines. reflexivity.
Qed.

Lemma publish_verdict_raises (env : publish_env) (payload : pyval) (w : world) (e : exn) :
  verdict (validator (dev w)) (envelope (config (dev w)) (t_stamp env) payload) "telemetry"
  = Err e ->
  is_Exception e = false
  /\ exists lines,
       publish_telemetry env payload w = (Err e, with_trace (logs lines ++ trace w) w).
Proof.
  intros Hv.
  assert (He : is_Exception e = false).
  { unfold verdict in Hv.
    destruct (schemas (validator (dev w)) !! "telemetry") as [schema|]; [|discriminate].
    destruct (jsonschema_validate _ schema) as [[]|e']; [discriminate|].
    destruct (is_Exception e') eqn:He'; [discriminate|]. congruence. }
  split; [exact He|].
  unfold publish_telemetry, try_except, bind, get_self, validate_telemetry.
  run_validate. rewrite Hv, He. exists lines. reflexivity.
Qed.

Lemma publish_tx_ok (env : publish_env) (payload : pyval) (w : world) (u : unit) :
  let message := envelope (config (dev w)) (t_stamp env) payload in
  let topic := telemetry_topic (config (dev w)) in
  verdict (validator (dev w)) message "telemetry" = Ok true ->
  dumps_error message = None ->
  tx env = Ok u ->
  exists lines,
    publish_telemetry env payload w
    = (Ok tt,
       {| dev := set_uptime_seconds
                   (uptime_seconds (dev w) + publish_interval (config (dev w)))
                   (set_last_heartbeat (t_heartbeat env)
                      (set_last_published
                         (<[topic := t_published env]> (last_published (dev w))) (dev w)));
          trace := Log DEBUG "Telemetry published"
                   :: Publish topic message :: logs lines ++ trace w |}).
Proof.
  intros message topic Hv Hs Htx.
  unfold publish_telemetry, try_except, bind, get_self, validate_telemetry.
  run_validate. fold message. rewrite Hv. simpl. unfold lift, json_dumps.
  fold message. rewrite Hs. simpl. rewrite Htx. simpl.
  exists lines. reflexivity.
Qed.

(** Whatever happens inside, [publish_telemetry] does not write
    [is_connected]. *)
Lemma publish_telemetry_flag (env : publish_env) (payload : pyval) (w : world) :
  is_connected (dev (snd (publish_telemetry env payload w))) = is_connected (dev w).
Proof.
  unfold publish_telemetry, try_except, bind, get_self, validate_telemetry.
  run_validate.
  destruct (verdict _ _ _) as [[|]|e]; simpl;
    [ | reflexivity | destruct (is_Exception e); reflexivity ].
  unfold lift, json_dumps.
  destruct (dumps_error _) as [e|]; simpl; [destruct (is_Exception e); reflexivity|].
  destruct (tx env) as [u|e]; simpl; [reflexivity|].
  destruct (is_Exception e); reflexivity.
Qed.

(** C9.  When the envelope built around a payload fails
    [validate_telemetry], [publish_telemetry] returns normally, calls
    [mqtt_client.publish] not at all, and leaves [error_count],
    [uptime_seconds], [last_published] and [last_heartbeat] (indeed the
    whole session object) as they were. *)
Theorem invalid_telemetry_changes_nothing (env : publish_env) (payload : pyval) (w : world) :
  fst (validate_telemetry (validator (dev w))
         (envelope (config (dev w)) (t_stamp env) payload) w) = Ok false ->
  let w' := snd (publish_telemetry env payload w) in
  fst (publish_telemetry env payload w) = Ok tt
  /\ published (trace w') = published (trace w)
  /\ error_count (dev w') = error_count (dev w)
  /\ uptime_seconds (dev w') = uptime_seconds (dev w)
  /\ last_published (dev w') = last_published (dev w)
  /\ last_heartbeat (dev w') = last_heartbeat (dev w)
  /\ dev w' = dev w.
Proof.
  unfold validate_telemetry. rewrite validate_fst. intros Hv.
  destruct (publish_invalid env payload w Hv) as [lines Hrun].
  simpl. rewrite Hrun. simpl.
  repeat split. apply published_logs.
Qed.

(** C5.  When the envelope passes validation and [json.dumps] accepts
    it, [publish_telemetry] hands exactly one message to the MQTT
    client: on topic [devices/{device_id}/telemetry], the dict with the
    four keys [device_id], [timestamp], [type], [payload] in this order,
    where [timestamp] is [int(time.time())], the whole second the clock
    reading falls in, taken from the clock and not from the payload,
    [type] is ["sensor"] exactly when ["sensor"] occurs in [device_type]
    and ["actuator"] otherwise, and [payload] is the caller's payload
    unchanged. *)
Theorem telemetry_envelope_published (env : publish_env) (payload : pyval) (w : world) :
  let cfg := config (dev w) in
  fst (validate_telemetry (validator (dev w)) (envelope cfg (t_stamp env) payload) w)
  = Ok true ->
  dumps_error (envelope cfg (t_stamp env) payload) = None ->
  published (trace (snd (publish_telemetry env payload w)))
  = ("devices/" ++ device_id cfg ++ "/telemetry",
     VDict [ ("device_id", VStr (device_id cfg));
             ("timestamp", VInt (py_int (t_stamp env)));
             ("type", VStr (classify cfg));
             ("payload", payload) ])
    :: published (trace w)
  /\ ((0 <= t_stamp env)%Q ->
      (inject_Z (py_int (t_stamp env)) <= t_stamp env)%Q
      /\ (t_stamp env < inject_Z (py_int (t_stamp env)) + 1)%Q)
  /\ (classify cfg = "sensor" <-> exists pre post, device_type cfg = pre ++ "sensor" ++ post)
  /\ (classify cfg <> "sensor" -> classify cfg = "actuator").
Proof.
  intros cfg. unfold validate_telemetry. rewrite validate_fst. intros Hv Hs.
  repeat split.
  - destruct (tx env) as [u|e] eqn:Htx; [|destruct (is_Exception e) eqn:He].
    + destruct (publish_tx_ok env payload w u Hv Hs Htx) as [lines ->].
      simpl. now rewrite published_logs.
    + destruct (publish_tx_raises env payload w e Hv Hs Htx He) as [lines ->].
      simpl. now rewrite published_logs.
    + destruct (publish_tx_interrupted env payload w e Hv Hs Htx He) as [lines ->].
      simpl. now rewrite published_logs.
  - apply py_int_floor; assumption.
  - apply py_int_floor; assumption.
  - unfold classify. intros H. apply str_contains_spec.
    destruct (str_contains "sensor" (device_type cfg)); [reflexivity | discriminate].
  - unfold classify. intros H. apply str_contains_spec in H. now rewrite H.
  - unfold classify. destruct (str_contains "sensor" (device_type cfg)); congruence.
Qed.

(** C7 (amended).  [publish_telemetry] does not look at [is_connected].
    Called while the session is not connected, it leaves it not
    connected, and [error_count] goes up by one exactly when an
    [Exception] is raised inside the call: by [json.dumps] on the
    envelope (nothing is handed to the client then), or by the [publish]
    of the MQTT client.  When validation fails nothing is handed to the
    client and [error_count] stays; when [json.dumps] and the client's
    [publish] return, [error_count] stays and the call counts as a
    published cycle. *)
Theorem publish_while_disconnected (env : publish_env) (payload : pyval) (w : world) :
  is_connected (dev w) = false ->
  let message := envelope (config (dev w)) (t_stamp env) payload in
  let topic := telemetry_topic (config (dev w)) in
  let r := verdict (validator (dev w)) message "telemetry" in
  let w' := snd (publish_telemetry env payload w) in
  is_connected (dev w') = false
  /\ (r = Ok false ->
      error_count (dev w') = error_count (dev w)
      /\ published (trace w') = published (trace w))
  /\ (forall e, r = Ok true -> dumps_error message = Some e -> is_Exception e = true ->
      error_count (dev w') = error_count (dev w) + 1
      /\ published (trace w') = published (trace w))
  /\ (forall e, r = Ok true -> dumps_error message = None ->
      tx env = Err e -> is_Exception e = true ->
      error_count (dev w') = error_count (dev w) + 1
      /\ published (trace w') = (topic, message) :: published (trace w))
  /\ (r = Ok true -> dumps_error message = None -> tx env = Ok tt ->
      error_count (dev w') = error_count (dev w)
      /\ uptime_seconds (dev w') = uptime_seconds (dev w) + publish_interval (config (dev w))
      /\ published (trace w') = (topic, message) :: published (trace w)).
Proof.
  intros Hc message topic r w'. subst r w'.
  split; [rewrite publish_telemetry_flag; exact Hc|]. repeat split.
  - destruct (publish_invalid env payload w H) as [lines ->]. reflexivity.
  - destruct (publish_invalid env payload w H) as [lines ->]. simpl. apply published_logs.
  - destruct (publish_dumps_raises env payload w e H H0 H1) as [lines ->]. reflexivity.
  - destruct (publish_dumps_raises env payload w e H H0 H1) as [lines ->].
    simpl. apply published_logs.
  - destruct (publish_tx_raises env payload w e H H0 H1 H2) as [lines ->]. reflexivity.
  - destruct (publish_tx_raises env payload w e H H0 H1 H2) as [lines ->].
    simpl. now rewrite published_logs.
  - destruct (publish_tx_ok env payload w tt H H0 H1) as [lines ->]. reflexivity.
  - destruct (publish_tx_ok env payload w tt H H0 H1) as [lines ->]. reflexivity.
  - destruct (publish_tx_ok env payload w tt H H0 H1) as [lines ->].
    simpl. now rewrite published_logs.
Qed.

(** ** Inbound messages *)

Lemma py_in_getitem (doc desired : pyval) :
  py_getitem doc "state" = Ok desired -> py_in "state" doc = Ok true.
Proof.
  destruct doc; simpl; try discriminate.
  destruct (dict_get "state" kvs) as [v|]; [|discriminate].
  intros _. reflexivity.
Qed.

(** Every inbound message either leaves the subclass alone, or carries a
    dict whose ["state"] entry passed [validate_command] and was handed
    to [handle_command], once. *)
Lemma on_message_cases (topic : string) (raw : wire) (w : world) :
  let w' := snd (_on_message topic raw w) in
  (handled (trace w') = handled (trace w) /\ dev w' = dev w)
  \/ exists doc desired,
       raw = Json doc
       /\ py_getitem doc "state" = Ok desired
       /\ verdict (validator (dev w)) desired "command" = Ok true
       /\ handled (trace w') = desired :: handled (trace w)
       /\ dev w' = set_state (snd (handle_command desired (state (dev w)))) (dev w).
Proof.
  unfold _on_message, try_except, bind, lift.
  destruct raw as [| |doc]; simpl; [left; split; reflexivity..|].
  destruct (py_in "state" doc) as [[|]|e] eqn:Hin; simpl;
    [ | left; split; reflexivity
      | destruct (is_Exception e); destruct e; simpl; left; split; reflexivity ].
  destruct (py_getitem doc "state") as [desired|e] eqn:Hget; simpl;
    [ | destruct (is_Exception e); destruct e; simpl; left; split; reflexivity ].
  unfold validate_command. run_validate. simpl.
  destruct (verdict (validator (dev w)) desired "command") as [[|]|e] eqn:Hv; simpl.
  - right. exists doc, desired. repeat split; try assumption;
      unfold call_handle_command, bind, get_self, emit, assign, lift; simpl;
      (destruct (handle_command desired (state (dev w))) as [[u|e] st']; simpl;
       [| destruct (is_Exception e); destruct e; simpl]);
      rewrite ?handled_logs; reflexivity.
  - left. split; [rewrite ?handled_logs|]; reflexivity.
  - left. destruct (is_Exception e); destruct e; simpl;
      (split; [rewrite ?handled_logs|]; reflexivity).
Qed.

(** C6.  An inbound message whose ["state"] fails [validate_command] is
    dropped: [handle_command] is not called and the session object is
    left as it was.  Whenever [_on_message] does call [handle_command],
    it calls it once, on the ["state"] entry of the decoded message, and
    that entry passed [validate_command]. *)
Theorem invalid_command_never_handled (topic : string) (raw : wire) (w : world) :
  let w' := snd (_on_message topic raw w) in
  (forall doc desired,
      raw = Json doc ->
      py_getitem doc "state" = Ok desired ->
      fst (validate_command (validator (dev w)) desired w) = Ok false ->
      handled (trace w') = handled (trace w) /\ dev w' = dev w)
  /\ (handled (trace w') = handled (trace w)
      \/ exists doc desired,
           raw = Json doc
           /\ py_getitem doc "state" = Ok desired
           /\ fst (validate_command (validator (dev w)) desired w) = Ok true
           /\ handled (trace w') = desired :: handled (trace w)).
Proof.
  intros w'. subst w'. split.
  - intros doc desired Hraw Hget. unfold validate_command. rewrite validate_fst.
    intros Hv.
    destruct (on_message_cases topic raw w) as [H | [doc' [desired' [-> [Hget' [Hv' _]]]]]].
    + exact H.
    + inversion Hraw; subst. congruence.
  - destruct (on_message_cases topic raw w)
      as [[H _] | [doc [desired [Hraw [Hget [Hv [Hh _]]]]]]].
    + left. exact H.
    + right. exists doc, desired. unfold validate_command. rewrite validate_fst. auto.
Qed.

(** ** What every method respects *)

Section KeepsMethods.
Variable R : BaseDevice -> BaseDevice -> Prop.
Variable ok : callback -> bool.
Hypothesis R_refl : forall d, R d d.
Hypothesis R_trans : forall a b c, R a b -> R b c -> R a c.
Hypothesis R_connect : forall rc, ok (on_connect rc) = true -> keeps R (_on_connect rc).
Hypothesis R_disconnect :
  forall rc, ok (on_disconnect rc) = true -> keeps R (_on_disconnect rc).
Hypothesis R_state : forall v d, R d (set_state v d).
Hypothesis R_bump : forall d, R d (bump_error_count d).
Hypothesis R_error : forall d, R d (set_status ERROR d).
Hypothesis R_last_published : forall m d, R d (set_last_published m d).
Hypothesis R_last_heartbeat : forall t d, R d (set_last_heartbeat t d).
Hypothesis R_uptime : forall n d, R d (set_uptime_seconds n d).

Lemma keeps_validate (self : SchemaValidator) (message : pyval) (schema_name : string) :
  keeps R (_validate self message schema_name).
Proof.
  intros w. destruct (validate_run self message schema_name w) as [lines ->].
  apply R_refl.
Qed.

Ltac keeps_tac :=
  repeat first
    [ apply (keeps_bind R R_trans); [|intros ?]
    | apply (keeps_try_except R R_trans); [|intros ?]
    | apply keeps_if
    | apply keeps_assign; intros ?
    | apply keeps_validate
    | apply (keeps_ret R R_refl) | apply (keeps_raise R R_refl)
    | apply (keeps_lift R R_refl) | apply (keeps_get_self R R_refl)
    | apply (keeps_emit R R_refl)
    | match goal with
      | |- keeps _ (match ?e with _ => _ end) => destruct e
      end
    | assumption ];
  try solve [auto].

Lemma keeps_on_message (topic : string) (raw : wire) : keeps R (_on_message topic raw).
Proof.
  unfold _on_message, validate_command, call_handle_command.
  keeps_tac.
Qed.

Lemma keeps_dispatch (cb : callback) : ok cb = true -> keeps R (dispatch cb).
Proof.
  destruct cb; simpl; intros Hok.
  - apply R_connect, Hok.
  - apply R_disconnect, Hok.
  - apply keeps_on_message.
  - unfold _on_publish. keeps_tac.
Qed.

Lemma keeps_deliver (cbs : list callback) :
  forallb ok cbs = true -> keeps R (deliver cbs).
Proof.
  unfold keeps, deliver. simpl.
  induction cbs as [|cb cbs IH]; simpl; intros Hok w; [apply R_refl|].
  apply andb_true_iff in Hok as [Hcb Hcbs].
  eapply R_trans; [apply (keeps_dispatch cb Hcb w) | apply (IH Hcbs)].
Qed.

Lemma keeps_time_sleep (seconds : Z) (env : sleep_env) :
  sleep_all ok env = true -> keeps R (time_sleep seconds env).
Proof.
  intros Hok. unfold time_sleep. keeps_tac. apply keeps_deliver, Hok.
Qed.

Lemma keeps_connect (env : connect_env) :
  sleep_all ok (wait env) = true -> keeps R (connect env).
Proof.
  intros Hok. unfold connect. keeps_tac. apply keeps_deliver, Hok.
Qed.

Lemma keeps_disconnect (env : disconnect_env) : keeps R (disconnect env).
Proof. unfold disconnect. keeps_tac. Qed.

Lemma keeps_publish_telemetry (env : publish_env) (payload : pyval) :
  keeps R (publish_telemetry env payload).
Proof. unfold publish_telemetry, validate_telemetry. keeps_tac. Qed.

Lemma keeps_publish_alert (now : Q) (transport : res unit) (alert_status severity : string)
    (additional_data : option (list (string * pyval))) :
  keeps R (publish_alert now transport alert_status severity additional_data).
Proof. unfold publish_alert, validate_alert. keeps_tac. Qed.

Lemma keeps_update_shadow (transport : res unit) (reported_state : pyval) :
  keeps R (update_shadow transport reported_state).
Proof. unfold update_shadow. keeps_tac. Qed.

Lemma keeps_iteration (interval : Z) (env : iter_env) :
  sleep_all ok (nap env) && sleep_all ok (handler_nap env) = true ->
  keeps R (iteration interval env).
Proof.
  intros Hok. apply andb_true_iff in Hok as [H1 H2].
  unfold iteration, loop_body, loop_handler, call_generate_telemetry.
  keeps_tac;
    first [ apply keeps_publish_telemetry | apply keeps_update_shadow
          | apply keeps_time_sleep; assumption ].
Qed.

Lemma keeps_run_loop (interval : Z) (script : list iter_env) :
  forallb (fun it => sleep_all ok (nap it) && sleep_all ok (handler_nap it)) script = true ->
  keeps R (run_loop interval script).
Proof.
  unfold keeps.
  induction script as [|env rest IH]; simpl; intros Hok w.
  - destruct (is_connected (dev w)); apply R_refl.
  - apply andb_true_iff in Hok as [Henv Hrest].
    destruct (is_connected (dev w)); [|apply R_refl].
    pose proof (keeps_iteration interval env Henv w) as Hit.
    destruct (iteration interval env w) as [[u|e] w']; simpl in *; [|exact Hit].
    eapply R_trans; [exact Hit | apply (IH Hrest)].
Qed.

Lemma keeps_run_finally (fin : disconnect_env) : keeps R (run_finally fin).
Proof. unfold run_finally. keeps_tac. Qed.

Lemma keeps_run (interval_override : option Z) (script : list iter_env)
    (fin : disconnect_env) :
  forallb (fun it => sleep_all ok (nap it) && sleep_all ok (handler_nap it)) script = true ->
  keeps R (run interval_override script fin).
Proof.
  intros Hok w. unfold run, bind at 1, emit at 1.
  set (w0 := {| dev := dev w; trace := Log INFO "started" :: trace w |}).
  pose proof (keeps_run_loop (py_or interval_override (publish_interval (config (dev w))))
                script Hok w0) as Hloop.
  change (dev w0) with (dev w) in Hloop.
  destruct (run_loop _ script w0) as [[[|]|e] w']; simpl in *.
  - eapply R_trans; [exact Hloop | apply keeps_run_finally].
  - exact Hloop.
  - eapply R_trans; [exact Hloop|].
    destruct e;
      apply (keeps_bind R R_trans (emit _) (fun _ => run_finally fin));
      auto using keeps_emit, keeps_run_finally.
Qed.

Lemma keeps_step (ev : event) (w : world) :
  event_all ok ev = true -> R (dev w) (dev (step ev w)).
Proof.
  destruct ev; simpl; intros Hok; unfold exec.
  - apply keeps_dispatch, Hok.
  - apply keeps_connect, Hok.
  - apply keeps_disconnect.
  - apply keeps_publish_telemetry.
  - apply keeps_publish_alert.
  - apply keeps_update_shadow.
  - apply keeps_run, Hok.
Qed.

Lemma keeps_steps (evs : list event) (w : world) :
  forallb (event_all ok) evs = true -> R (dev w) (dev (steps evs w)).
Proof.
  unfold steps. revert w.
  induction evs as [|ev evs IH]; simpl; intros w Hok; [apply R_refl|].
  apply andb_true_iff in Hok as [Hev Hevs].
  eapply R_trans; [apply keeps_step, Hev | apply IH, Hevs].
Qed.
End KeepsMethods.

(** ** Connection callbacks *)

Lemma on_connect_ack (w : world) :
  _on_connect 0 w
  = (Ok tt,
     {| dev := set_error_count 0 (set_status ACTIVE (set_is_connected true (dev w)));
        trace := Log DEBUG "Subscribed"
                 :: Subscribe (shadow_delta_topic (config (dev w)))
                 :: Log INFO "connected to AWS IoT Core" :: trace w |}).
Proof. reflexivity. Qed.

Lemma on_connect_refused (rc : Z) (w : world) :
  rc <> 0 ->
  _on_connect rc w
  = (Ok tt,
     {| dev := bump_error_count (set_status ERROR (dev w));
        trace := Log ERROR_LEVEL "Connection failed" :: trace w |}).
Proof.
  intros Hrc. unfold _on_connect.
  destruct (Z.eqb_spec rc 0) as [->|_]; [contradiction|reflexivity].
Qed.

Lemma on_disconnect_dev (rc : Z) (w : world) :
  dev (snd (_on_disconnect rc w)) = set_status OFFLINE (set_is_connected false (dev w)).
Proof. unfold _on_disconnect. destruct (Z.eqb rc 0); reflexivity. Qed.

(** ** [error_count] *)

Lemma error_count_le_step (ev : event) (w : world) :
  event_all not_ack ev = true -> error_count_le (dev w) (dev (step ev w)).
Proof.
  apply keeps_step; unfold error_count_le; intros; simpl; try lia.
  - intros w0. destruct (Z.eqb_spec rc 0) as [->|Hrc]; [discriminate|].
    rewrite (on_connect_refused rc w0 Hrc). simpl. lia.
  - intros w0. rewrite on_disconnect_dev. simpl. lia.
Qed.


(** ** [status] *)

Lemma sleep_all_any (s : sleep_env) : sleep_all any_callback s = true.
Proof. unfold sleep_all. induction (arrivals s); simpl; auto. Qed.

Lemma event_all_any (ev : event) : event_all any_callback ev = true.
Proof.
  destruct ev; simpl; try reflexivity.
  - apply sleep_all_any.
  - induction script as [|it script IH]; simpl; [reflexivity|].
    now rewrite !sleep_all_any, IH.
Qed.

Lemma events_all_any (evs : list event) : forallb (event_all any_callback) evs = true.
Proof. induction evs as [|ev evs IH]; simpl; [reflexivity|]. now rewrite event_all_any, IH. Qed.

Lemma status_invariant_connect (rc : Z) (w : world) :
  status_invariant (dev (snd (_on_connect rc w))).
Proof.
  destruct (Z.eqb_spec rc 0) as [->|Hrc].
  - rewrite on_connect_ack. unfold status_invariant. simpl.
    repeat split; intros; congruence.
  - rewrite (on_connect_refused rc w Hrc). unfold status_invariant. simpl.
    repeat split; intros; congruence.
Qed.

Lemma status_invariant_disconnect (rc : Z) (w : world) :
  status_invariant (dev (snd (_on_disconnect rc w))).
Proof.
  rewrite on_disconnect_dev. unfold status_invariant. simpl.
  repeat split; intros; congruence.
Qed.

Lemma status_invariant_steps (evs : list event) (w : world) :
  status_invariant (dev w) -> status_invariant (dev (steps evs w)).
Proof.
  apply (keeps_steps (fun d d' => status_invariant d -> status_invariant d') any_callback);
    try (intros; unfold status_invariant in *; simpl in *; tauto);
    try apply events_all_any.
  - intros rc _ w0 _. apply status_invariant_connect.
  - intros rc _ w0 _. apply status_invariant_disconnect.
  - intros d _. unfold status_invariant. simpl. repeat split; intros; congruence.
Qed.

Lemma left_inactive_step (ev : event) (w : world) :
  status (dev w) <> INACTIVE -> status (dev (step ev w)) <> INACTIVE.
Proof.
  apply (keeps_step (fun d d' => status d <> INACTIVE -> status d' <> INACTIVE) any_callback);
    try (intros; simpl in *; congruence);
    try apply event_all_any.
  - auto.
  - intros rc _ w0 _. destruct (Z.eqb_spec rc 0) as [->|Hrc].
    + rewrite on_connect_ack. simpl. congruence.
    + rewrite (on_connect_refused rc w0 Hrc). simpl. congruence.
  - intros rc _ w0 _. rewrite on_disconnect_dev. simpl. congruence.
Qed.

Lemma same_status_trans (a b c : BaseDevice) :
  same_status a b -> same_status b c -> same_status a c.
Proof. unfold same_status. intros [] []. split; congruence. Qed.

Lemma connect_unfold (env : connect_env) (w : world) :
  connect env w
  = let w0 := {| dev := dev w;
                 trace := Connect (mqtt_broker (config (dev w))) (mqtt_port (config (dev w)))
                          :: Log INFO "Connecting" :: trace w |} in
    let fail e w1 :=
      (Err e, {| dev := set_status ERROR (dev w1);
                 trace := Log ERROR_LEVEL "Connection error" :: trace w1 |}) in
    match dial env with
    | Err e => if is_Exception e then fail e w0 else (Err e, w0)
    | Ok _ =>
        match time_sleep 2 (wait env)
                {| dev := dev w; trace := LoopStart :: trace w0 |} with
        | (Err e, w1) => if is_Exception e then fail e w1 else (Err e, w1)
        | (Ok _, w1) =>
            if is_connected (dev w1)
            then (Ok tt, {| dev := dev w1;
                            trace := Log INFO "ready for telemetry" :: trace w1 |})
            else fail ConnectionFailed w1
        end
    end.
Proof.
  unfold connect, try_except, bind, get_self, emit, lift, assign, raise. simpl.
  destruct (dial env) as [u|e]; simpl.
  - destruct (time_sleep 2 (wait env) _) as [[u'|e] w1]; simpl.
    + destruct (is_connected (dev w1)); reflexivity.
    + destruct (is_Exception e); reflexivity.
  - destruct (is_Exception e); reflexivity.
Qed.

Lemma same_status_refl (d : BaseDevice) : same_status d d.
Proof. split; reflexivity. Qed.

Ltac same_status_tac :=
  first [ apply same_status_refl
        | apply same_status_trans
        | intros; discriminate
        | intros; split; reflexivity ].

(** No event but [connect] writes [status] or [is_connected], unless a
    connection callback arrives inside it. *)
Lemma same_status_step (ev : event) (w : world) :
  event_all not_connection ev = true ->
  (forall env, ev <> EvConnect env) ->
  same_status (dev w) (dev (step ev w)).
Proof.
  intros Hok Hne. destruct ev; simpl in Hok |- *; unfold exec.
  - apply (keeps_dispatch same_status not_connection); try same_status_tac. exact Hok.
  - exfalso. apply (Hne env). reflexivity.
  - apply (keeps_disconnect same_status); same_status_tac.
  - apply (keeps_publish_telemetry same_status); same_status_tac.
  - apply (keeps_publish_alert same_status); same_status_tac.
  - apply (keeps_update_shadow same_status); same_status_tac.
  - apply (keeps_run same_status not_connection); try same_status_tac. exact Hok.
Qed.

(** [connect] itself writes [status] in its handler only: [ERROR], when
    it raises an [Exception]. *)
Lemma connect_status (env : connect_env) (w : world) :
  sleep_all not_connection (wait env) = true ->
  let r := connect env w in
  is_connected (dev (snd r)) = is_connected (dev w)
  /\ match fst r with
     | Ok _ => status (dev (snd r)) = status (dev w)
     | Err e => status (dev (snd r)) = if is_Exception e then ERROR else status (dev w)
     end.
Proof.
  intros Hok r. subst r. rewrite connect_unfold. cbv zeta.
  destruct (dial env) as [u|e].
  - match goal with
    | |- context [time_sleep 2 (wait env) ?w0] =>
        pose proof (keeps_time_sleep same_status not_connection
                      same_status_refl same_status_trans
                      ltac:(intros; discriminate) ltac:(intros; discriminate)
                      ltac:(intros; split; reflexivity) 2 (wait env) Hok w0) as Hs;
        destruct (time_sleep 2 (wait env) w0) as [[u'|e] w1]
    end; simpl in Hs; destruct Hs as [Hst Hc].
    + destruct (is_connected (dev w1)) eqn:H1; simpl; rewrite ?H1; auto.
    + destruct (is_Exception e) eqn:He; simpl; rewrite ?He; auto.
  - destruct (is_Exception e) eqn:He; simpl; rewrite ?He; auto.
Qed.

(** C1 (amended).  In every state a session can be in between two
    events: [status] is [ACTIVE] only if the session is connected, and
    [OFFLINE] or [INACTIVE] only if it is not, and once [status] has left
    [INACTIVE] no event brings it back.  [status] and [is_connected] are
    written by the connection callbacks, and [status] by the handler of
    [connect], and by nothing else: every other event ([disconnect],
    the three publishes, an inbound message, a publish acknowledgment, a
    whole [run] with its loop handler) leaves both as they are unless a
    connection callback arrives inside it; [connect] leaves
    [is_connected] alone and sets [status] to [ERROR] exactly when it
    raises an [Exception]; a successful acknowledgment sets [ACTIVE]
    (with [is_connected] and [error_count = 0]), a refused one sets
    [ERROR], a disconnect callback sets [OFFLINE] (and not connected).
    While a connection callback is part-way through its writes, each of
    [status] and [is_connected] has its old or its new value, and
    [is_connected] is written first: part-way through a disconnect
    callback an [ACTIVE] session is [ACTIVE] and not connected, and
    part-way through a successful acknowledgment an [OFFLINE] or
    [INACTIVE] session has that status and is connected. *)
Theorem status_follows_connection_events (w : world) :
  reachable w ->
  status_invariant (dev w)
  /\ (forall ev, status (dev w) <> INACTIVE -> status (dev (step ev w)) <> INACTIVE)
  /\ (forall ev,
        event_all not_connection ev = true -> (forall env, ev <> EvConnect env) ->
        same_status (dev w) (dev (step ev w)))
  /\ (forall env,
        sleep_all not_connection (wait env) = true ->
        let r := connect env w in
        is_connected (dev (snd r)) = is_connected (dev w)
        /\ match fst r with
           | Ok _ => status (dev (snd r)) = status (dev w)
           | Err e => status (dev (snd r)) = if is_Exception e then ERROR else status (dev w)
           end)
  /\ (let d := dev (step (EvCallback (on_connect 0)) w) in
      status d = ACTIVE /\ is_connected d = true /\ error_count d = 0)
  /\ (forall rc, rc <> 0 ->
        let d := dev (step (EvCallback (on_connect rc)) w) in
        status d = ERROR /\ is_connected d = is_connected (dev w))
  /\ (forall rc, let d := dev (step (EvCallback (on_disconnect rc)) w) in
                 status d = OFFLINE /\ is_connected d = false)
  /\ (forall cb d,
        d ∈ midway cb (dev w) ->
        (status d = status (dev w) \/ status d = status (dev (step (EvCallback cb) w)))
        /\ (is_connected d = is_connected (dev w)
            \/ is_connected d = is_connected (dev (step (EvCallback cb) w))))
  /\ (forall rc,
        status (dev w) = ACTIVE ->
        exists d, d ∈ midway (on_disconnect rc) (dev w)
                  /\ status d = ACTIVE /\ is_connected d = false)
  /\ (status (dev w) = OFFLINE \/ status (dev w) = INACTIVE ->
      exists d, d ∈ midway (on_connect 0) (dev w)
                /\ status d = status (dev w) /\ is_connected d = true).
Proof.
  intros [cfg [now [v [evs ->]]]].
  set (w := steps evs (new_session cfg now v)).
  split; [|split; [|split; [|split; [|split; [|split; [|split; [|split; [|split]]]]]]]].
  - apply status_invariant_steps. unfold status_invariant. simpl.
    repeat split; intros; congruence.
  - intros ev. apply left_inactive_step.
  - intros ev. apply same_status_step.
  - intros env. apply connect_status.
  - unfold step, exec, dispatch. rewrite on_connect_ack. simpl. auto.
  - intros rc Hrc. unfold step, exec, dispatch. rewrite (on_connect_refused rc _ Hrc).
    simpl. auto.
  - intros rc. unfold step, exec, dispatch. rewrite on_disconnect_dev. simpl. auto.
  - intros cb d Hd. destruct cb as [rc|rc|topic raw|mid]; simpl in Hd.
    + unfold step, exec, dispatch. destruct (Z.eqb_spec rc 0) as [->|Hrc].
      * rewrite on_connect_ack.
        repeat (apply elem_of_cons in Hd as [->|Hd]); [| |inversion Hd]; simpl; auto.
      * rewrite (on_connect_refused rc _ Hrc).
        apply elem_of_cons in Hd as [->|Hd]; [|inversion Hd]. simpl. auto.
    + unfold step, exec, dispatch. rewrite on_disconnect_dev.
      apply elem_of_cons in Hd as [->|Hd]; [|inversion Hd]. simpl. auto.
    + inversion Hd.
    + inversion Hd.
  - intros rc Hs. exists (set_is_connected false (dev w)). simpl.
    split; [apply elem_of_cons; left; reflexivity | auto].
  - intros Hs. exists (set_is_connected true (dev w)). simpl.
    split; [apply elem_of_cons; left; reflexivity | auto].
Qed.

(** ** The pieces of one turn of the loop *)

Lemma is_Exception_false (e : exn) : is_Exception e = false <-> e = KeyboardInterrupt.
Proof. destruct e; simpl; split; congruence. Qed.

Lemma sleep_error_none (seconds : Z) :
  0 <= seconds <= sleep_max -> sleep_error seconds = None.
Proof.
  intros [H0 H1]. unfold sleep_error.
  destruct (Z.ltb_spec sleep_max seconds); [lia|].
  destruct (Z.ltb_spec seconds (- sleep_max)); [unfold sleep_max in *; lia|].
  simpl. destruct (Z.ltb_spec seconds 0); [lia | reflexivity].
Qed.

Lemma sleep_error_negative (seconds : Z) :
  seconds < 0 ->
  sleep_error seconds
  = Some (if Z.ltb seconds (- sleep_max) then OverflowError else ValueError).
Proof.
  intros H. unfold sleep_error.
  destruct (Z.ltb_spec sleep_max seconds); [unfold sleep_max in *; lia|].
  destruct (Z.ltb_spec seconds (- sleep_max)); simpl; [reflexivity|].
  destruct (Z.ltb_spec seconds 0); [reflexivity | lia].
Qed.

Lemma sleep_error_oversized (seconds : Z) :
  sleep_max < seconds -> sleep_error seconds = Some OverflowError.
Proof.
  intros H. unfold sleep_error.
  destruct (Z.ltb_spec sleep_max seconds); [reflexivity | lia].
Qed.

Lemma sleep_error_Exception (seconds : Z) (e : exn) :
  sleep_error seconds = Some e -> is_Exception e = true.
Proof.
  unfold sleep_error.
  destruct (_ || _); [intros H; inversion H; reflexivity|].
  destruct (Z.ltb seconds 0); intros H; inversion H; reflexivity.
Qed.

Lemma time_sleep_returns (seconds : Z) (env : sleep_env) (w : world) :
  0 <= seconds <= sleep_max -> interrupted env = false ->
  time_sleep seconds env w
  = (Ok tt, snd (deliver (arrivals env)
                   {| dev := dev w; trace := Sleep seconds :: trace w |})).
Proof.
  intros Hs Hi. unfold time_sleep. rewrite (sleep_error_none seconds Hs).
  unfold bind, emit. simpl. now rewrite Hi.
Qed.


Lemma time_sleep_refused (seconds : Z) (env : sleep_env) (w : world) (e : exn) :
  sleep_error seconds = Some e -> time_sleep seconds env w = (Err e, w).
Proof. intros Hs. unfold time_sleep. rewrite Hs. reflexivity. Qed.

Lemma call_generate_telemetry_run (draw : Z) (w : world) :
  call_generate_telemetry draw w
  = (fst (generate_telemetry (state (dev w)) draw),
     {| dev := set_state (snd (generate_telemetry (state (dev w)) draw)) (dev w);
        trace := Generate :: trace w |}).
Proof. reflexivity. Qed.

(** [update_shadow] never touches the session object, and swallows every
    [Exception] without counting it. *)
Lemma update_shadow_dev (transport : res unit) (reported_state : pyval) (w : world) :
  dev (snd (update_shadow transport reported_state w)) = dev w.
Proof.
  unfold update_shadow, try_except, bind, get_self, lift, json_dumps, emit.
  destruct (dumps_error _) as [e|]; simpl; [destruct (is_Exception e); reflexivity|].
  destruct transport as [u|e]; simpl; [reflexivity|].
  destruct (is_Exception e); reflexivity.
Qed.






(** ** Why the loop ends *)


Lemma run_loop_disconnected (interval : Z) (script : list iter_env) (w : world) :
  is_connected (dev w) = false -> run_loop interval script w = (Ok Exited, w).
Proof. intros H. destruct script; simpl; now rewrite H. Qed.



(** ** What the loop writes to the trace *)

Local Open Scope list_scope.

Lemma adds_ret {A : Type} (a : A) : adds_no_stop (ret a).
Proof. intros w. exists []. auto. Qed.

Lemma adds_raise {A : Type} (e : exn) : adds_no_stop (@raise A e).
Proof. intros w. exists []. auto. Qed.

Lemma adds_lift {A : Type} (r : res A) : adds_no_stop (lift r).
Proof. intros w. exists []. auto. Qed.

Lemma adds_get_self : adds_no_stop get_self.
Proof. intros w. exists []. auto. Qed.

Lemma adds_assign (f : BaseDevice -> BaseDevice) : adds_no_stop (assign f).
Proof. intros w. exists []. auto. Qed.

Lemma adds_emit (a : action) : not_LoopStop a = true -> adds_no_stop (emit a).
Proof. intros Ha w. exists [a]. simpl. rewrite Ha. auto. Qed.

Lemma adds_trans (w1 w2 w3 : world) :
  (exists new, trace w2 = new ++ trace w1 /\ forallb not_LoopStop new = true) ->
  (exists new, trace w3 = new ++ trace w2 /\ forallb not_LoopStop new = true) ->
  exists new, trace w3 = new ++ trace w1 /\ forallb not_LoopStop new = true.
Proof.
  intros [n1 [H1 F1]] [n2 [H2 F2]]. exists (n2 ++ n1). split.
  - rewrite H2, H1. apply app_assoc.
  - rewrite forallb_app, F1, F2. reflexivity.
Qed.

Lemma adds_bind {A B : Type} (m : M A) (k : A -> M B) :
  adds_no_stop m -> (forall a, adds_no_stop (k a)) -> adds_no_stop (bind m k).
Proof.
  intros Hm Hk w. unfold bind. specialize (Hm w).
  destruct (m w) as [[a|e] w']; simpl in *; [|exact Hm].
  eapply adds_trans; [exact Hm | apply Hk].
Qed.

Lemma adds_try_except {A : Type} (body : M A) (handler : exn -> M A) :
  adds_no_stop body -> (forall e, adds_no_stop (handler e)) ->
  adds_no_stop (try_except body handler).
Proof.
  intros Hb Hh w. unfold try_except. specialize (Hb w).
  destruct (body w) as [[a|e] w']; simpl in *; [exact Hb|].
  destruct (is_Exception e); simpl; [|exact Hb].
  eapply adds_trans; [exact Hb | apply Hh].
Qed.

Lemma adds_if {A : Type} (b : bool) (m1 m2 : M A) :
  adds_no_stop m1 -> adds_no_stop m2 -> adds_no_stop (if b then m1 else m2).
Proof. destruct b; auto. Qed.

Lemma logs_no_stop (lines : list log_line) : forallb not_LoopStop (logs lines) = true.
Proof. induction lines; simpl; auto. Qed.

Lemma adds_validate (self : SchemaValidator) (message : pyval) (schema_name : string) :
  adds_no_stop (_validate self message schema_name).
Proof.
  intros w. destruct (validate_run self message schema_name w) as [lines ->].
  exists (logs lines). split; [reflexivity | apply logs_no_stop].
Qed.

Ltac adds_tac :=
  repeat first
    [ apply adds_bind; [|intros ?]
    | apply adds_try_except; [|intros ?]
    | apply adds_if
    | apply adds_assign
    | apply adds_validate
    | apply adds_ret | apply adds_raise | apply adds_lift | apply adds_get_self
    | apply adds_emit; reflexivity
    | match goal with
      | |- adds_no_stop (match ?e with _ => _ end) => destruct e
      end
    | assumption ].

Lemma adds_dispatch (cb : callback) : adds_no_stop (dispatch cb).
Proof.
  destruct cb; simpl;
    unfold _on_connect, _on_disconnect, _on_message, _on_publish,
      validate_command, call_handle_command;
    adds_tac.
Qed.

Lemma adds_deliver (cbs : list callback) : adds_no_stop (deliver cbs).
Proof.
  unfold adds_no_stop, deliver. simpl.
  induction cbs as [|cb cbs IH]; simpl; intros w; [exists []; auto|].
  eapply adds_trans; [apply (adds_dispatch cb w) | apply IH].
Qed.

Lemma adds_iteration (interval : Z) (env : iter_env) :
  adds_no_stop (iteration interval env).
Proof.
  unfold iteration, loop_body, loop_handler, call_generate_telemetry,
    publish_telemetry, update_shadow, validate_telemetry, time_sleep.
  adds_tac; apply adds_deliver.
Qed.

Lemma adds_run_loop (interval : Z) (script : list iter_env) :
  adds_no_stop (run_loop interval script).
Proof.
  unfold adds_no_stop.
  induction script as [|env rest IH]; simpl; intros w.
  - destruct (is_connected (dev w)); exists []; auto.
  - destruct (is_connected (dev w)); [|exists []; auto].
    pose proof (adds_iteration interval env w) as Hit.
    destruct (iteration interval env w) as [[u|e] w']; simpl in *; [|exact Hit].
    eapply adds_trans; [exact Hit | apply IH].
Qed.

(** [disconnect] starts with [loop_stop], swallows every [Exception],
    and leaves the session object alone. *)
Lemma disconnect_trace (fin : disconnect_env) (w : world) :
  exists tail,
    trace (snd (disconnect fin w)) = tail ++ LoopStop :: trace w
    /\ forallb is_teardown tail = true
    /\ forallb not_LoopStop tail = true
    /\ dev (snd (disconnect fin w)) = dev w.
Proof.
  unfold disconnect, try_except, bind, emit, lift. simpl.
  destruct (stop fin) as [u|e]; simpl.
  - destruct (hangup fin) as [u'|e]; simpl.
    + exists [Log INFO "disconnected gracefully"; ClientDisconnect]. auto.
    + destruct (is_Exception e); simpl.
      * exists [Log ERROR_LEVEL "Disconnection error"; ClientDisconnect]. auto.
      * exists [ClientDisconnect]. auto.
  - destruct (is_Exception e); simpl.
    + exists [Log ERROR_LEVEL "Disconnection error"]. auto.
    + exists []. auto.
Qed.

Lemma run_finally_trace (fin : disconnect_env) (w : world) :
  exists tail,
    trace (snd (run_finally fin w)) = tail ++ LoopStop :: trace w
    /\ forallb is_teardown tail = true
    /\ forallb not_LoopStop tail = true.
Proof.
  unfold run_finally, bind.
  destruct (disconnect_trace fin w) as [tail [Ht [Hd [Hn _]]]].
  destruct (disconnect fin w) as [[u|e] w']; simpl in *.
  - exists (Log INFO "stopped" :: tail). rewrite Ht. simpl. auto.
  - exists tail. auto.
Qed.

Lemma run_unfold (interval_override : option Z) (script : list iter_env)
    (fin : disconnect_env) (w : world) :
  run interval_override script fin w
  = match run_loop (py_or interval_override (publish_interval (config (dev w)))) script
            {| dev := dev w; trace := Log INFO "started" :: trace w |} with
    | (Ok Pending, w') => (Ok Pending, w')
    | (Ok Exited, w') => run_finally fin w'
    | (Err KeyboardInterrupt, w') =>
        (emit (Log INFO "Shutdown signal received") ;;; run_finally fin) w'
    | (Err _, w') =>
        (emit (Log ERROR_LEVEL "Fatal error") ;;; run_finally fin) w'
    end.
Proof. reflexivity. Qed.

(** Whenever [run] is over, the trace it leaves is: what the loop did,
    without any [loop_stop]; then the one [loop_stop] that opens
    [disconnect]; then nothing but the rest of [disconnect] and log
    records. *)
Lemma run_teardown (interval_override : option Z) (script : list iter_env)
    (fin : disconnect_env) (w : world) :
  fst (run interval_override script fin w) <> Ok Pending ->
  exists tail loop_part,
    trace (snd (run interval_override script fin w))
    = tail ++ LoopStop :: loop_part ++ trace w
    /\ forallb is_teardown tail = true
    /\ forallb not_LoopStop tail = true
    /\ forallb not_LoopStop loop_part = true.
Proof.
  rewrite run_unfold.
  set (w0 := {| dev := dev w; trace := Log INFO "started" :: trace w |}).
  destruct (adds_run_loop (py_or interval_override (publish_interval (config (dev w))))
              script w0) as [new [Hnew Fnew]].
  destruct (run_loop _ script w0) as [[[|]|e] w'] eqn:Hloop; simpl in Hnew.
  - intros _. destruct (run_finally_trace fin w') as [tail [Ht [Hd Hn]]].
    exists tail, (new ++ [Log INFO "started"]). rewrite Ht, Hnew, <- app_assoc.
    rewrite forallb_app, Fnew. auto.
  - simpl. congruence.
  - intros _.
    assert (Hfin : forall a, not_LoopStop a = true ->
              exists tail loop_part,
                trace (snd ((emit a ;;; run_finally fin) w'))
                = tail ++ LoopStop :: loop_part ++ trace w
                /\ forallb is_teardown tail = true
                /\ forallb not_LoopStop tail = true
                /\ forallb not_LoopStop loop_part = true).
    { intros a Ha. unfold bind at 1, emit at 1.
      destruct (run_finally_trace fin {| dev := dev w'; trace := a :: trace w' |})
        as [tail [Ht [Hd Hn]]].
      exists tail, (a :: new ++ [Log INFO "started"]). rewrite Ht. simpl.
      rewrite Hnew, <- app_assoc, Ha, forallb_app, Fnew. auto. }
    destruct e; apply Hfin; reflexivity.
Qed.

(** ** The loop, turn by turn *)




(** ** What is counted *)



(** ** The validator over a session *)



(** ** The shared validator *)

Lemma load_schemas_returns (fs : filesystem) (dir : string) (lg : list log_line) :
  (forall path l, fs path <> Denied l) ->
  exists loaded lg', _load_schemas fs dir lg = (Ok loaded, lg').
Proof.
  intros Hfs. pose proof (load_schemas_outcome fs dir lg) as Hout.
  destruct (_load_schemas fs dir lg) as [[loaded|e] lg'] eqn:H; simpl in Hout; [eauto|].
  destruct Hout as [name [filename [l [_ [Hd _]]]]]. exfalso. exact (Hfs _ _ Hd).
Qed.

Lemma get_validator_cached (fs : filesystem) (p : process) (v : SchemaValidator) :
  _validator p = Some v -> get_validator fs p = (Ok v, p).
Proof. intros H. unfold get_validator. now rewrite H. Qed.

(** C10.  [get_validator] returns whenever no schema file meets an
    error other than being missing or not being JSON.  Once a call has returned a validator, the global
    [_validator] holds it, and from then on, in every state of the process
    in which the global still holds it: [get_validator] returns that same
    object whatever the file system looks like by then, builds no new
    object and reads no file (the process state is unchanged); and every
    [BaseDevice] that is constructed gets that same object as
    [self.validator] and leaves the global as it is.  The call that found
    the global empty built the object, loading the schemas then. *)
Theorem get_validator_idempotent :
  (forall fs p, (forall path l, fs path <> Denied l) ->
                exists v p', get_validator fs p = (Ok v, p'))
  /\ (forall fs p v p',
        get_validator fs p = (Ok v, p') ->
        _validator p' = Some v
        /\ (_validator p = None ->
            oid v = next_oid p /\ next_oid p' = S (next_oid p)
            /\ exists lg, _load_schemas fs default_schema_dir (plog p) = (Ok (schemas v), lg))
        /\ (forall p2, _validator p2 = Some v ->
              (forall fs', get_validator fs' p2 = (Ok v, p2))
              /\ (forall cfg now fs' tls d p3,
                    BaseDevice_init cfg now fs' tls p2 = (Ok d, p3) ->
                    validator d = v /\ oid (validator d) = oid v
                    /\ _validator p3 = Some v /\ next_oid p3 = next_oid p2))).
Proof.
  split.
  - intros fs p Hfs. unfold get_validator.
    destruct (_validator p) as [v|]; [eauto|].
    unfold SchemaValidator_init.
    destruct (load_schemas_returns fs default_schema_dir (plog p) Hfs) as [loaded [lg' ->]].
    eauto.
  - intros fs p v p' Hget. unfold get_validator in Hget.
    destruct (_validator p) as [v0|] eqn:Hglobal.
    + inversion Hget; subst. split; [exact Hglobal|]. split; [discriminate|].
      intros p2 Hp2. split.
      * intros fs'. now apply get_validator_cached.
      * intros cfg now fs' tls d p3. unfold BaseDevice_init.
        rewrite (get_validator_cached fs' p2 v Hp2).
        destruct tls as [u|e]; [|destruct (is_Exception e); discriminate].
        intros Hd. inversion Hd; subst. simpl. auto.
    + destruct (SchemaValidator_init fs default_schema_dir p) as [[v1|e] p1] eqn:Hinit;
        [|discriminate].
      inversion Hget; subst. simpl.
      destruct (init_schemas _ _ _ _ _ Hinit) as [lg' [Hload [Hoid [Hnext _]]]].
      split; [reflexivity|]. split; [intros _; eauto|].
      intros p2 Hp2. split.
      * intros fs'. now apply get_validator_cached.
      * intros cfg now fs' tls d p3. unfold BaseDevice_init.
        rewrite (get_validator_cached fs' p2 v Hp2).
        destruct tls as [u|e]; [|destruct (is_Exception e); discriminate].
        intros Hd. inversion Hd; subst. simpl. auto.
Qed.

(** * Further properties of the session *)

(** ** Handlers that swallow *)

(** A [try] whose [except Exception] handler returns lets no
    [Exception] out. *)
Lemma try_except_swallows {A : Type} (body : M A) (handler : exn -> M A) (w : world) :
  (forall e w0, exists a w1, handler e w0 = (Ok a, w1)) ->
  forall e, fst (try_except body handler w) = Err e -> is_Exception e = false.
Proof.
  intros Hh e. unfold try_except.
  destruct (body w) as [[a|e0] w0]; simpl; [discriminate|].
  destruct (is_Exception e0) eqn:He0.
  - destruct (Hh e0 w0) as [a [w1 ->]]. discriminate.
  - intros H. inversion H; subst. exact He0.
Qed.

(** ** Python dicts *)

Lemma dict_get_set (k k' : string) (v : pyval) (kvs : list (string * pyval)) :
  dict_get k' (dict_set k v kvs) = if String.eqb k' k then Some v else dict_get k' kvs.
Proof.
  induction kvs as [|[k0 old] rest IH]; simpl; [reflexivity|].
  destruct (String.eqb_spec k k0) as [->|Hk]; simpl.
  - destruct (String.eqb k' k0); reflexivity.
  - rewrite IH. destruct (String.eqb_spec k' k0) as [->|Hk'].
    + destruct (String.eqb_spec k0 k) as [->|_]; [contradiction|reflexivity].
    + reflexivity.
Qed.

Lemma dict_get_app (k : string) (l1 l2 : list (string * pyval)) :
  dict_get k (l1 ++ l2)
  = match dict_get k l1 with Some v => Some v | None => dict_get k l2 end.
Proof.
  induction l1 as [|[k0 v0] l1 IH]; simpl; [reflexivity|].
  destruct (String.eqb k k0); [reflexivity | exact IH].
Qed.

(** [d.update(extra)]: for every key the last value [extra] gives it
    wins, and a key [extra] does not name keeps its value. *)
Lemma dict_get_update (k : string) (kvs extra : list (string * pyval)) :
  dict_get k (dict_update kvs extra)
  = match dict_get k (rev extra) with Some v => Some v | None => dict_get k kvs end.
Proof.
  unfold dict_update. revert kvs.
  induction extra as [|[k0 v0] extra IH]; intros kvs; simpl; [reflexivity|].
  rewrite IH, dict_get_app, dict_get_set. simpl.
  destruct (dict_get k (rev extra)); [reflexivity|].
  destruct (String.eqb k k0); reflexivity.
Qed.

(** ** [publish_alert] *)

Lemma publish_alert_payload (alert_status severity : string)
    (additional_data : option (list (string * pyval))) :
  match additional_data with
  | Some (kv :: more) =>
      dict_update [("status", VStr alert_status); ("severity", VStr severity)] (kv :: more)
  | _ => [("status", VStr alert_status); ("severity", VStr severity)]
  end = alert_payload_of alert_status severity additional_data.
Proof. destruct additional_data as [[|kv more]|]; reflexivity. Qed.

Lemma publish_alert_accepted (now : Q) (transport : res unit)
    (alert_status severity : string) (additional_data : option (list (string * pyval)))
    (w : world) :
  let message := envelope (config (dev w)) now
                   (VDict (alert_payload_of alert_status severity additional_data)) in
  verdict (validator (dev w)) message "alert" = Ok true ->
  dumps_error message = None ->
  published (trace (snd (publish_alert now transport alert_status severity
                           additional_data w)))
  = (alerts_topic (config (dev w)), message) :: published (trace w).
Proof.
  intros message Hv Hs.
  unfold publish_alert, try_except, bind, get_self, validate_alert.
  rewrite publish_alert_payload. run_validate. fold message. rewrite Hv. simpl.
  unfold lift, json_dumps. fold message. rewrite Hs. simpl.
  destruct transport as [u|e]; simpl; [|destruct (is_Exception e); simpl];
    now rewrite published_logs.
Qed.

Lemma publish_alert_rejected (now : Q) (transport : res unit)
    (alert_status severity : string) (additional_data : option (list (string * pyval)))
    (w : world) :
  let message := envelope (config (dev w)) now
                   (VDict (alert_payload_of alert_status severity additional_data)) in
  verdict (validator (dev w)) message "alert" = Ok false
  \/ dumps_error message <> None ->
  published (trace (snd (publish_alert now transport alert_status severity
                           additional_data w)))
  = published (trace w).
Proof.
  intros message Hrej.
  unfold publish_alert, try_except, bind, get_self, validate_alert.
  rewrite publish_alert_payload. run_validate. fold message.
  destruct (verdict (validator (dev w)) message "alert") as [[|]|e] eqn:Hv; simpl.
  - destruct Hrej as [Hf|Hs]; [discriminate|].
    unfold lift, json_dumps. fold message.
    destruct (dumps_error message) as [e|]; [|contradiction]. simpl.
    destruct (is_Exception e); simpl; apply published_logs.
  - apply published_logs.
  - destruct (is_Exception e); simpl; apply published_logs.
Qed.

(** X1.  [publish_alert] never writes to the session object: whatever
    happens to the alert (rejected by the schema, refused by
    [json.dumps], refused by the client), [error_count], [status] and
    every other field stay as they were; no [Exception] leaves the call;
    and an alert that fails validation or serialisation is not handed to
    the client. *)
Theorem publish_alert_leaves_session (now : Q) (transport : res unit)
    (alert_status severity : string) (additional_data : option (list (string * pyval)))
    (w : world) :
  let r := publish_alert now transport alert_status severity additional_data w in
  let message := envelope (config (dev w)) now
                   (VDict (alert_payload_of alert_status severity additional_data)) in
  dev (snd r) = dev w
  /\ (forall e, fst r = Err e -> is_Exception e = false)
  /\ (verdict (validator (dev w)) message "alert" = Ok false
      \/ dumps_error message <> None ->
      published (trace (snd r)) = published (trace w)).
Proof.
  intros r message. subst r. repeat split.
  - symmetry.
    apply (keeps_publish_alert (fun d d' => d = d')); [reflexivity | congruence].
  - apply try_except_swallows. intros e w0. eexists _, _. reflexivity.
  - apply publish_alert_rejected.
Qed.

(** X2.  An alert that passes validation and that [json.dumps] accepts
    is handed to the client once, on [devices/{device_id}/alerts], as
    the envelope whose payload is status and severity updated with the
    additional data.  So the additional data can overwrite both: the
    payload's [status] is the last value the additional data gives for
    ["status"] if it gives one and [alert_status] otherwise, likewise
    [severity]; every other key carries the last value the additional
    data gives it. *)
Theorem publish_alert_envelope (now : Q) (transport : res unit)
    (alert_status severity : string) (additional_data : option (list (string * pyval)))
    (w : world) :
  let cfg := config (dev w) in
  let payload := alert_payload_of alert_status severity additional_data in
  let extra := rev (default [] additional_data) in
  verdict (validator (dev w)) (envelope cfg now (VDict payload)) "alert" = Ok true ->
  dumps_error (envelope cfg now (VDict payload)) = None ->
  published (trace (snd (publish_alert now transport alert_status severity
                           additional_data w)))
  = (alerts_topic cfg,
     VDict [ ("device_id", VStr (device_id cfg));
             ("timestamp", VInt (py_int now));
             ("type", VStr (classify cfg));
             ("payload", VDict payload) ])
    :: published (trace w)
  /\ dict_get "status" payload
     = Some (default (VStr alert_status) (dict_get "status" extra))
  /\ dict_get "severity" payload
     = Some (default (VStr severity) (dict_get "severity" extra))
  /\ (forall k, k <> "status" -> k <> "severity" ->
                dict_get k payload = dict_get k extra).
Proof.
  intros cfg payload extra Hv Hs.
  split; [apply (publish_alert_accepted now transport _ _ _ w Hv Hs)|].
  subst payload extra. unfold alert_payload_of.
  repeat split.
  - rewrite dict_get_update. destruct (dict_get "status" _); reflexivity.
  - rewrite dict_get_update. destruct (dict_get "severity" _); reflexivity.
  - intros k Hk1 Hk2. rewrite dict_get_update.
    destruct (dict_get k (rev (default [] additional_data))); [reflexivity|].
    simpl. destruct (String.eqb_spec k "status"); [contradiction|].
    destruct (String.eqb_spec k "severity"); [contradiction|reflexivity].
Qed.

(** ** [update_shadow] *)

(** X3.  [update_shadow] never writes to the session object and lets no
    [Exception] out.  When [json.dumps] accepts the report
    [{"state": {"reported": state}}], it is handed to the client once,
    on [$aws/things/{device_id}/shadow/update], without any schema
    validation; when [json.dumps] raises, nothing is handed over. *)
Theorem update_shadow_reports_state (transport : res unit) (reported_state : pyval)
    (w : world) :
  let r := update_shadow transport reported_state w in
  dev (snd r) = dev w
  /\ (forall e, fst r = Err e -> is_Exception e = false)
  /\ (dumps_error (shadow_update reported_state) = None ->
      published (trace (snd r))
      = (shadow_update_topic (config (dev w)),
         VDict [("state", VDict [("reported", reported_state)])])
        :: published (trace w))
  /\ (dumps_error (shadow_update reported_state) <> None ->
      published (trace (snd r)) = published (trace w)).
Proof.
  intros r. subst r. split; [apply update_shadow_dev|]. split.
  - apply try_except_swallows. intros e w0. eexists _, _. reflexivity.
  - unfold update_shadow, try_except, bind, get_self, lift, json_dumps, emit.
    split; intros Hs.
    + rewrite Hs. simpl. destruct transport as [u|e]; simpl; [reflexivity|].
      destruct (is_Exception e); reflexivity.
    + destruct (dumps_error (shadow_update reported_state)) as [e|]; [|contradiction].
      simpl. destruct (is_Exception e); reflexivity.
Qed.

(** ** [connect] and [disconnect] *)

(** X4.  [connect] returns only on a connected session; every
    [Exception] it raises leaves [status = ERROR].  When the client's
    [connect] raises, the network loop is never started and the same
    exception is raised again.  When the client's [connect] returns but no
    callback arrives during the wait on a session that is not connected,
    [connect] raises its timeout exception and sets [status = ERROR]
    without touching [error_count]. *)
Theorem connect_outcomes (env : connect_env) (w : world) :
  let r := connect env w in
  (fst r = Ok tt -> is_connected (dev (snd r)) = true)
  /\ (forall e, fst r = Err e -> is_Exception e = true -> status (dev (snd r)) = ERROR)
  /\ (forall e, dial env = Err e -> is_Exception e = true ->
        fst r = Err e
        /\ dev (snd r) = set_status ERROR (dev w)
        /\ trace (snd r)
           = Log ERROR_LEVEL "Connection error"
             :: Connect (mqtt_broker (config (dev w))) (mqtt_port (config (dev w)))
             :: Log INFO "Connecting" :: trace w)
  /\ (forall u, dial env = Ok u -> arrivals (wait env) = [] ->
        interrupted (wait env) = false -> is_connected (dev w) = false ->
        fst r = Err ConnectionFailed
        /\ dev (snd r) = set_status ERROR (dev w)
        /\ error_count (dev (snd r)) = error_count (dev w)).
Proof.
  intros r. subst r. rewrite connect_unfold. cbv zeta.
  split; [|split; [|split]].
  - destruct (dial env) as [u|e]; [|destruct (is_Exception e); discriminate].
    destruct (time_sleep 2 (wait env) _) as [[u'|e] w1];
      [|destruct (is_Exception e); discriminate].
    destruct (is_connected (dev w1)) eqn:Hc; [intros _; exact Hc | discriminate].
  - intros e. destruct (dial env) as [u|e0].
    + destruct (time_sleep 2 (wait env) _) as [[u'|e1] w1].
      * destruct (is_connected (dev w1)); [discriminate | reflexivity].
      * destruct (is_Exception e1) eqn:He1; [reflexivity|].
        simpl. intros H He. inversion H; subst. congruence.
    + destruct (is_Exception e0) eqn:He0; [reflexivity|].
      simpl. intros H He. inversion H; subst. congruence.
  - intros e Hd He. rewrite Hd, He. simpl. auto.
  - intros u Hd Harr Hint Hc. rewrite Hd.
    rewrite (time_sleep_returns 2 (wait env) _ ltac:(unfold sleep_max; lia) Hint), Harr.
    simpl.
    rewrite Hc. simpl. auto.
Qed.

(** X5.  [disconnect] never writes to the session object: in particular
    [is_connected] stays as it was until the disconnect callback arrives.
    It lets no [Exception] out, always calls [loop_stop] first, and calls
    the client's [disconnect] exactly when [loop_stop] returned. *)
Theorem disconnect_is_quiet (env : disconnect_env) (w : world) :
  let r := disconnect env w in
  dev (snd r) = dev w
  /\ (forall e, fst r = Err e -> is_Exception e = false)
  /\ (exists tail, trace (snd r) = tail ++ LoopStop :: trace w
                   /\ forallb not_LoopStop tail = true
                   /\ (In ClientDisconnect tail <-> exists u, stop env = Ok u)).
Proof.
  intros r. subst r. split; [|split].
  - destruct (disconnect_trace env w) as [tail [_ [_ [_ Hd]]]]. exact Hd.
  - apply try_except_swallows. intros e w0. eexists _, _. reflexivity.
  - unfold disconnect, try_except, bind, emit, lift. simpl.
    destruct (stop env) as [u|e]; simpl.
    + destruct (hangup env) as [u'|e]; simpl.
      * exists [Log INFO "disconnected gracefully"; ClientDisconnect].
        repeat split; simpl; eauto.
      * destruct (is_Exception e); simpl.
        -- exists [Log ERROR_LEVEL "Disconnection error"; ClientDisconnect].
           repeat split; simpl; eauto.
        -- exists [ClientDisconnect]. repeat split; simpl; eauto.
    + destruct (is_Exception e); simpl.
      * exists [Log ERROR_LEVEL "Disconnection error"].
        repeat split; simpl.
        -- intros [H|[]]. discriminate.
        -- intros [u Hu]. discriminate.
      * exists []. repeat split; simpl; [tauto | intros [u Hu]; discriminate].
Qed.

(** ** Inbound messages *)

Lemma extract_state_spec (raw : wire) (desired : pyval) :
  extract_state raw = Some desired
  <-> exists doc, raw = Json doc /\ py_getitem doc "state" = Ok desired.
Proof.
  unfold extract_state, py_getitem. split.
  - destruct raw as [| |doc]; try discriminate.
    destruct doc; try discriminate. intros H. eexists. split; [reflexivity|].
    simpl. now rewrite H.
  - intros [doc [-> H]]. destruct doc; try discriminate.
    destruct (dict_get "state" kvs); [congruence | discriminate].
Qed.

(** X6.  No inbound message changes [error_count], [status],
    [is_connected] or any other field of the session but [state], and no
    [Exception] leaves [_on_message], not even one [handle_command]
    raises.  Bytes that do not decode, JSON that is not a dict (a list or
    a string that contains ["state"] included) and dicts without a
    ["state"] key are dropped: the subclass is not called and the session
    object is left as it was. *)
Theorem inbound_message_is_contained (topic : string) (raw : wire) (w : world) :
  let r := _on_message topic raw w in
  (forall e, fst r = Err e -> is_Exception e = false)
  /\ (exists st, dev (snd r) = set_state st (dev w))
  /\ (extract_state raw = None ->
      fst r = Ok tt /\ handled (trace (snd r)) = handled (trace w) /\ dev (snd r) = dev w).
Proof.
  intros r. subst r. split; [|split].
  - apply try_except_swallows. intros e w0. destruct e; eexists _, _; reflexivity.
  - destruct (on_message_cases topic raw w) as [[_ Hd] | [doc [desired [_ [_ [_ [_ Hd]]]]]]].
    + exists (state (dev w)). rewrite Hd. destruct (dev w). reflexivity.
    + eexists. exact Hd.
  - intros Hnone.
    assert (Hcases := on_message_cases topic raw w).
    destruct Hcases as [[Hh Hd] | [doc [desired [Hraw [Hget _]]]]].
    + split; [|split; assumption].
      unfold _on_message, try_except, bind, lift.
      destruct raw as [| |doc]; simpl; try reflexivity.
      destruct doc; simpl in *; rewrite ?Hnone; simpl; try reflexivity;
        match goal with
        | |- context [if ?b then _ else _] => destruct b
        end; reflexivity.
    + assert (Hsome : extract_state raw = Some desired)
        by (apply extract_state_spec; eauto).
      congruence.
Qed.

(** X7.  Round trip of a command: when the decoded message is a dict
    whose ["state"] entry passes [validate_command], [handle_command] is
    called once with exactly that entry, [self.state] becomes what the
    subclass left, nothing else in the session changes, and whatever
    [Exception] the subclass raises stays inside [_on_message]. *)
Theorem valid_command_is_dispatched (topic : string) (raw : wire) (w : world)
    (command : pyval) :
  extract_state raw = Some command ->
  verdict (validator (dev w)) command "command" = Ok true ->
  let r := _on_message topic raw w in
  handled (trace (snd r)) = command :: handled (trace w)
  /\ dev (snd r) = set_state (snd (handle_command command (state (dev w)))) (dev w)
  /\ ((forall e, fst (handle_command command (state (dev w))) = Err e ->
                 is_Exception e = true) ->
      fst r = Ok tt).
Proof.
  intros Hex Hv r. subst r.
  apply extract_state_spec in Hex as [doc [-> Hget]].
  assert (Hin := py_in_getitem doc command Hget).
  unfold _on_message, try_except, bind, lift. simpl. rewrite Hin. simpl.
  rewrite Hget. simpl. unfold validate_command. run_validate. simpl. rewrite Hv. simpl.
  unfold call_handle_command, bind, get_self, emit, assign, lift. simpl.
  destruct (handle_command command (state (dev w))) as [[u|e] st'] eqn:Hh; simpl.
  - rewrite handled_logs. simpl. repeat split. destruct u. reflexivity.
  - destruct (is_Exception e) eqn:He.
    + destruct e; simpl; rewrite handled_logs; simpl; repeat split; reflexivity.
    + simpl. rewrite handled_logs. simpl. repeat split.
      intros H. specialize (H e eq_refl). congruence.
Qed.

(** ** [run] at its edges *)

Lemma disconnect_returns (env : disconnect_env) (w : world) :
  (forall e, stop env = Err e -> is_Exception e = true) ->
  (forall e, hangup env = Err e -> is_Exception e = true) ->
  fst (disconnect env w) = Ok tt.
Proof.
  intros Hs Hh. unfold disconnect, try_except, bind, emit, lift. simpl.
  destruct (stop env) as [[]|e]; simpl.
  - destruct (hangup env) as [[]|e]; simpl; [reflexivity|].
    now rewrite (Hh e eq_refl).
  - now rewrite (Hs e eq_refl).
Qed.

(** X8.  [run] on a session that is not connected does no turn of the
    loop: nothing is generated, published or slept.  It logs the start,
    goes straight to [disconnect], leaves the session object as it was,
    and returns when [disconnect] meets nothing but [Exception]s. *)
Theorem run_without_connection (interval_override : option Z) (script : list iter_env)
    (fin : disconnect_env) (w : world) :
  is_connected (dev w) = false ->
  let r := run interval_override script fin w in
  dev (snd r) = dev w
  /\ (exists tail, trace (snd r) = tail ++ LoopStop :: Log INFO "started" :: trace w
                   /\ forallb is_teardown tail = true)
  /\ ((forall e, stop fin = Err e -> is_Exception e = true) ->
      (forall e, hangup fin = Err e -> is_Exception e = true) ->
      fst r = Ok Exited).
Proof.
  intros Hc r. subst r. rewrite run_unfold.
  rewrite run_loop_disconnected by exact Hc.
  set (w0 := {| dev := dev w; trace := Log INFO "started" :: trace w |}).
  unfold run_finally, bind.
  destruct (disconnect_trace fin w0) as [tail [Ht [Htd [_ Hd]]]].
  pose proof (disconnect_returns fin w0) as Hret.
  destruct (disconnect fin w0) as [[u|e] w1]; simpl in *.
  - split; [exact Hd|]. split; [|reflexivity].
    exists (Log INFO "stopped" :: tail). rewrite Ht. simpl. auto.
  - split; [exact Hd|]. split; [eauto|].
    intros Hs Hh. specialize (Hret Hs Hh). discriminate.
Qed.

Lemma loop_body_refused (interval : Z) (env : iter_env) (w : world) (err : exn) :
  sleep_error interval = Some err ->
  exists e w1, loop_body interval env w = (Err e, w1)
               /\ error_count (dev w) <= error_count (dev w1).
Proof.
  intros Hi. unfold loop_body. unfold bind at 1.
  rewrite call_generate_telemetry_run.
  destruct (generate_telemetry (state (dev w)) (reading env)) as [[payload|e] st'];
    simpl; [|eexists _, _; split; [reflexivity | simpl; lia]].
  set (w1 := {| dev := set_state st' (dev w); trace := Generate :: trace w |}).
  unfold bind at 1.
  pose proof (error_count_le_step (EvPublishTelemetry (pub env) payload) w1 eq_refl) as Hp.
  unfold error_count_le, step, exec in Hp. simpl in Hp.
  destruct (publish_telemetry (pub env) payload w1) as [[u|e] w2]; simpl in Hp;
    [|eexists _, _; split; [reflexivity | exact Hp]].
  unfold bind at 1, get_self at 1. unfold bind at 1.
  pose proof (update_shadow_dev (shadow_tx env) (state (dev w2)) w2) as Hd.
  destruct (update_shadow (shadow_tx env) (state (dev w2)) w2) as [[u'|e] w3];
    simpl in Hd.
  - rewrite (time_sleep_refused interval (nap env) w3 err Hi).
    eexists _, _. split; [reflexivity | rewrite Hd; exact Hp].
  - eexists _, _. split; [reflexivity | rewrite Hd; exact Hp].
Qed.

Lemma iteration_refused (interval : Z) (env : iter_env) (w : world) (err : exn) :
  sleep_error interval = Some err ->
  exists e w', iteration interval env w = (Err e, w')
               /\ ((e = err /\ error_count (dev w) + 1 <= error_count (dev w'))
                   \/ e = KeyboardInterrupt).
Proof.
  intros Hi. unfold iteration, try_except.
  destruct (loop_body_refused interval env w err Hi) as [e [w1 [-> Hle]]].
  destruct (is_Exception e) eqn:He.
  - unfold loop_handler, bind at 1, emit at 1, bind at 1, assign at 1.
    rewrite (time_sleep_refused interval (handler_nap env) _ err Hi).
    eexists _, _. split; [reflexivity|]. left. split; [reflexivity|]. simpl. lia.
  - eexists _, _. split; [reflexivity|]. right. now apply is_Exception_false.
Qed.

(** An interval [time.sleep] refuses ends the session in its first
    turn. *)
Lemma refused_interval_ends_run (interval : Z) (env : iter_env)
    (rest : list iter_env) (fin : disconnect_env) (w : world) (err : exn) :
  sleep_error interval = Some err ->
  is_connected (dev w) = true ->
  (exists e w', run_loop interval (env :: rest) w = (Err e, w')
                /\ ((e = err /\ error_count (dev w) + 1 <= error_count (dev w'))
                    \/ e = KeyboardInterrupt))
  /\ fst (run (Some interval) (env :: rest) fin w) <> Ok Pending
  /\ In LoopStop (trace (snd (run (Some interval) (env :: rest) fin w))).
Proof.
  intros Hi Hc.
  assert (Hnp : fst (run (Some interval) (env :: rest) fin w) <> Ok Pending).
  { rewrite run_unfold. simpl py_or.
    destruct (Z.eqb_spec interval 0) as [->|_]; [discriminate Hi|].
    set (w0 := {| dev := dev w; trace := Log INFO "started" :: trace w |}).
    destruct (iteration_refused interval env w0 err Hi) as [e [w' [Hit _]]].
    simpl run_loop. change (is_connected (dev w0)) with (is_connected (dev w)).
    rewrite Hc, Hit.
    assert (Hfin : forall a w1, fst ((emit a ;;; run_finally fin) w1) <> Ok Pending).
    { intros a w1. unfold bind at 1, emit at 1. unfold run_finally, bind.
      destruct (disconnect fin _) as [[u|e0] w2]; simpl; discriminate. }
    destruct e; apply Hfin. }
  split; [|split; [exact Hnp|]].
  - destruct (iteration_refused interval env w err Hi) as [e [w' [Hit Hcase]]].
    exists e, w'. split; [|exact Hcase]. simpl. now rewrite Hc, Hit.
  - destruct (run_teardown (Some interval) (env :: rest) fin w Hnp)
      as [tail [loop_part [-> _]]].
    apply in_or_app. right. left. reflexivity.
Qed.

(** X9.  A negative interval ends the session in its first turn: the
    sleep of the turn raises, the handler counts it, the sleep of the
    handler raises again and the loop is left.  Whatever the later turns
    would have been, [run] is over after the first, with [disconnect]
    called; and unless a [KeyboardInterrupt] came first, the loop ended on
    the error of [time.sleep] ([ValueError], or [OverflowError] when the
    interval is below [-sleep_max]) with [error_count] at least one
    higher. *)
Theorem negative_interval_ends_session (interval : Z) (env : iter_env)
    (rest : list iter_env) (fin : disconnect_env) (w : world) :
  interval < 0 ->
  is_connected (dev w) = true ->
  (exists e w', run_loop interval (env :: rest) w = (Err e, w')
                /\ ((e = (if Z.ltb interval (- sleep_max) then OverflowError else ValueError)
                     /\ error_count (dev w) + 1 <= error_count (dev w'))
                    \/ e = KeyboardInterrupt))
  /\ fst (run (Some interval) (env :: rest) fin w) <> Ok Pending
  /\ In LoopStop (trace (snd (run (Some interval) (env :: rest) fin w))).
Proof.
  intros Hi. apply refused_interval_ends_run, sleep_error_negative, Hi.
Qed.

(** X20.  An interval of more than [sleep_max] seconds ends the session
    in its first turn as well: [time.sleep] raises [OverflowError] in the
    turn and again in the handler, [run] takes it for a fatal error and
    disconnects. *)
Theorem oversized_interval_ends_session (interval : Z) (env : iter_env)
    (rest : list iter_env) (fin : disconnect_env) (w : world) :
  sleep_max < interval ->
  is_connected (dev w) = true ->
  (exists e w', run_loop interval (env :: rest) w = (Err e, w')
                /\ ((e = OverflowError /\ error_count (dev w) + 1 <= error_count (dev w'))
                    \/ e = KeyboardInterrupt))
  /\ fst (run (Some interval) (env :: rest) fin w) <> Ok Pending
  /\ In LoopStop (trace (snd (run (Some interval) (env :: rest) fin w))).
Proof.
  intros Hi. apply refused_interval_ends_run, sleep_error_oversized, Hi.
Qed.


(** ** Loading, once more *)

(** X11.  After [SchemaValidator(schema_dir)] the loaded schemas mirror
    the schema files: a name is loaded with a document exactly when it is
    one of the three schema names and its file holds that JSON document.
    Nothing else is ever in [self.schemas]. *)
Theorem loaded_schemas_mirror_files (fs : filesystem) (dir : string) (p p' : process)
    (v : SchemaValidator) :
  SchemaValidator_init fs dir p = (Ok v, p') ->
  forall name doc,
    schemas v !! name = Some doc
    <-> exists filename, (name, filename) ∈ schema_files
                         /\ fs (path_join dir filename) = Holds doc.
Proof.
  intros Hinit name doc.
  destruct (init_schemas _ _ _ _ _ Hinit) as [lg' [Hload _]].
  split.
  - intros Hlook.
    assert (Hfile : forall filename, (name, filename) ∈ schema_files ->
              exists filename, (name, filename) ∈ schema_files
                               /\ fs (path_join dir filename) = Holds doc).
    { intros filename Hin. exists filename. split; [exact Hin|].
      rewrite (load_schemas_lookup _ _ _ _ _ _ _ Hload Hin) in Hlook.
      destruct (fs (path_join dir filename)); congruence. }
    destruct (String.eqb_spec name "telemetry") as [->|H1];
      [apply (Hfile "telemetry.schema.json"); in_schema_files|].
    destruct (String.eqb_spec name "alert") as [->|H2];
      [apply (Hfile "alert.schema.json"); in_schema_files|].
    destruct (String.eqb_spec name "command") as [->|H3];
      [apply (Hfile "command.schema.json"); in_schema_files|].
    rewrite (load_schemas_other _ _ _ _ _ _ Hload H1 H2 H3) in Hlook. discriminate.
  - intros [filename [Hin Hfile]].
    rewrite (load_schemas_lookup _ _ _ _ _ _ _ Hload Hin), Hfile. reflexivity.
Qed.

Lemma init_fst (fs : filesystem) (dir : string) (p : process) :
  fst (SchemaValidator_init fs dir p)
  = match fst (_load_schemas fs dir (plog p)) with
    | Ok loaded => Ok {| oid := next_oid p; schema_dir := dir; schemas := loaded |}
    | Err e => Err e
    end.
Proof.
  unfold SchemaValidator_init.
  destruct (_load_schemas fs dir (plog p)) as [[loaded|e] lg]; reflexivity.
Qed.

(** X12.  Building the validator fails exactly when one of the three
    schema files meets an error other than being missing or not being
    JSON (no permission, a directory in its place, bytes that are not
    UTF-8, ...); the failure is the error of such a file, and that of the
    telemetry schema when that file has one; and [get_validator] does
    not keep anything from a failed construction: the global stays
    empty, so the next call builds again. *)
Theorem unreadable_schema_aborts (fs : filesystem) (dir : string) (p : process) :
  ((exists e, fst (SchemaValidator_init fs dir p) = Err e)
   <-> exists name filename l, (name, filename) ∈ schema_files
                               /\ fs (path_join dir filename) = Denied l)
  /\ (forall e,
        fst (SchemaValidator_init fs dir p) = Err e ->
        exists name filename l,
          (name, filename) ∈ schema_files
          /\ fs (path_join dir filename) = Denied l /\ e = load_exn l)
  /\ (forall l,
        fs (path_join dir "telemetry.schema.json") = Denied l ->
        fst (SchemaValidator_init fs dir p) = Err (load_exn l))
  /\ (forall e p', get_validator fs p = (Err e, p') ->
        _validator p = None /\ _validator p' = None).
Proof.
  pose proof (load_schemas_outcome fs dir (plog p)) as Hout.
  rewrite init_fst.
  split; [split|split; [|split]].
  - intros [e He].
    destruct (fst (_load_schemas fs dir (plog p))) as [loaded|e0]; [discriminate|].
    destruct Hout as [name [filename [l [Hin [Hd _]]]]]. eauto.
  - intros [name [filename [l [Hin Hd]]]].
    destruct (fst (_load_schemas fs dir (plog p))) as [loaded|e0]; [|eauto].
    exfalso. exact (Hout name filename l Hin Hd).
  - intros e He.
    destruct (fst (_load_schemas fs dir (plog p))) as [loaded|e0]; [discriminate|].
    inversion He; subst. exact Hout.
  - intros l Hd. unfold _load_schemas, schema_files. cbn [fold_left].
    rewrite (load_one_denied fs dir ∅ (plog p) ("telemetry", "telemetry.schema.json") l Hd).
    reflexivity.
  - intros e p' Hget. unfold get_validator in Hget.
    destruct (_validator p) as [v|] eqn:Hg; [discriminate|].
    unfold SchemaValidator_init in Hget.
    destruct (_load_schemas fs default_schema_dir (plog p)) as [[loaded|e0] lg];
      inversion Hget; subst. simpl. auto.
Qed.

(** ** What a whole session does to the outside *)

Section Sound.
Variable v : SchemaValidator.
Variable cfg : DeviceConfig.

Lemma sound_stay {A : Type} (m : M A) :
  (forall w, snd (m w) = w) -> sound v cfg m.
Proof. intros H w Hinv. rewrite H. split; [exact Hinv|]. exists []. auto. Qed.

Lemma sound_ret {A : Type} (a : A) : sound v cfg (ret a).
Proof. now apply sound_stay. Qed.

Lemma sound_raise {A : Type} (e : exn) : sound v cfg (@raise A e).
Proof. now apply sound_stay. Qed.

Lemma sound_lift {A : Type} (r : res A) : sound v cfg (lift r).
Proof. now apply sound_stay. Qed.

Lemma sound_emit (a : action) : permitted v cfg a -> sound v cfg (emit a).
Proof. intros Ha w Hinv. split; [exact Hinv|]. exists [a]. auto. Qed.

Lemma sound_assign (f : BaseDevice -> BaseDevice) :
  (forall d, session_inv v cfg d -> session_inv v cfg (f d)) -> sound v cfg (assign f).
Proof. intros Hf w Hinv. split; [apply Hf, Hinv|]. exists []. auto. Qed.

Lemma sound_then (w1 w2 w3 : world) :
  (session_inv v cfg (dev w1) ->
   session_inv v cfg (dev w2)
   /\ exists new, trace w2 = new ++ trace w1 /\ Forall (permitted v cfg) new) ->
  (session_inv v cfg (dev w2) ->
   session_inv v cfg (dev w3)
   /\ exists new, trace w3 = new ++ trace w2 /\ Forall (permitted v cfg) new) ->
  session_inv v cfg (dev w1) ->
  session_inv v cfg (dev w3)
  /\ exists new, trace w3 = new ++ trace w1 /\ Forall (permitted v cfg) new.
Proof.
  intros H12 H23 H1. destruct (H12 H1) as [H2 [n1 [E1 F1]]].
  destruct (H23 H2) as [H3 [n2 [E2 F2]]]. split; [exact H3|].
  exists (n2 ++ n1). split.
  - rewrite E2, E1. apply app_assoc.
  - apply Forall_app. auto.
Qed.

Lemma sound_bind {A B : Type} (m : M A) (k : A -> M B) :
  sound v cfg m -> (forall a, sound v cfg (k a)) -> sound v cfg (bind m k).
Proof.
  intros Hm Hk w. unfold bind. specialize (Hm w).
  destruct (m w) as [[a|e] w']; simpl in *; [|exact Hm].
  apply (sound_then w w' _ Hm (Hk a w')).
Qed.

Lemma sound_bind_self {B : Type} (k : BaseDevice -> M B) :
  (forall d, session_inv v cfg d -> sound v cfg (k d)) -> sound v cfg (bind get_self k).
Proof. intros Hk w Hinv. unfold bind, get_self. apply (Hk (dev w) Hinv w Hinv). Qed.

Lemma sound_bind_validate {B : Type} (self : SchemaValidator) (message : pyval)
    (schema_name : string) (k : bool -> M B) :
  (verdict self message schema_name = Ok true -> sound v cfg (k true)) ->
  (verdict self message schema_name = Ok false -> sound v cfg (k false)) ->
  sound v cfg (bind (_validate self message schema_name) k).
Proof.
  intros Ht Hf w. unfold bind.
  destruct (validate_run self message schema_name w) as [lines ->].
  assert (Hlog : session_inv v cfg (dev w) ->
            session_inv v cfg (dev (with_trace (logs lines ++ trace w) w))
            /\ exists new, trace (with_trace (logs lines ++ trace w) w) = new ++ trace w
                           /\ Forall (permitted v cfg) new).
  { intros Hinv. split; [exact Hinv|]. exists (logs lines). split; [reflexivity|].
    clear. induction lines; simpl; constructor; simpl; auto. }
  destruct (verdict self message schema_name) as [[|]|e] eqn:Hv; simpl.
  - apply (sound_then w _ _ Hlog (Ht eq_refl _)).
  - apply (sound_then w _ _ Hlog (Hf eq_refl _)).
  - exact Hlog.
Qed.

Lemma sound_bind_dumps {B : Type} (x : pyval) (k : pyval -> M B) :
  (dumps_error x = None -> sound v cfg (k x)) ->
  sound v cfg (bind (lift (json_dumps x)) k).
Proof.
  intros Hk w Hinv. unfold bind, lift, json_dumps.
  destruct (dumps_error x) as [e|] eqn:Hs; simpl.
  - split; [exact Hinv|]. exists []. auto.
  - apply (Hk eq_refl w Hinv).
Qed.

Lemma sound_try_except {A : Type} (body : M A) (handler : exn -> M A) :
  sound v cfg body -> (forall e, sound v cfg (handler e)) ->
  sound v cfg (try_except body handler).
Proof.
  intros Hb Hh w. unfold try_except. specialize (Hb w).
  destruct (body w) as [[a|e] w']; simpl in *; [exact Hb|].
  destruct (is_Exception e); simpl; [|exact Hb].
  apply (sound_then w w' _ Hb (Hh e w')).
Qed.

Lemma sound_if {A : Type} (b : bool) (m1 m2 : M A) :
  sound v cfg m1 -> sound v cfg m2 -> sound v cfg (if b then m1 else m2).
Proof. destruct b; auto. Qed.

(** The assignments the methods make keep [session_inv]. *)
Lemma inv_flags (b : bool) (s : DeviceStatus) (d : BaseDevice) :
  session_inv v cfg d ->
  session_inv v cfg (set_is_connected b d) /\ session_inv v cfg (set_status s d).
Proof. unfold session_inv. simpl. tauto. Qed.

Lemma inv_state (st : pyval) (d : BaseDevice) :
  session_inv v cfg d -> session_inv v cfg (set_state st d).
Proof. unfold session_inv. simpl. tauto. Qed.

Lemma inv_heartbeat (t : Q) (d : BaseDevice) :
  session_inv v cfg d -> session_inv v cfg (set_last_heartbeat t d).
Proof. unfold session_inv. simpl. tauto. Qed.

Lemma inv_errors (d : BaseDevice) :
  session_inv v cfg d ->
  session_inv v cfg (set_error_count 0 d) /\ session_inv v cfg (bump_error_count d).
Proof. unfold session_inv, bump_error_count. simpl. intuition lia. Qed.

Lemma inv_uptime (d : BaseDevice) :
  session_inv v cfg d ->
  session_inv v cfg (set_uptime_seconds (uptime_seconds d + publish_interval (config d)) d).
Proof.
  unfold session_inv. simpl. intros [Hv [Hc [He [Hu Hl]]]].
  repeat split; auto. rewrite Hc. intros H. specialize (Hu H). lia.
Qed.

Lemma inv_last_published (t : Q) (d : BaseDevice) :
  session_inv v cfg d ->
  session_inv v cfg
    (set_last_published (<[telemetry_topic cfg := t]> (last_published d)) d).
Proof.
  unfold session_inv. simpl. intros [Hv [Hc [He [Hu Hl]]]].
  repeat split; auto. intros topic Hsome.
  destruct (decide (telemetry_topic cfg = topic)) as [<-|Hne]; [reflexivity|].
  rewrite lookup_insert_ne in Hsome by exact Hne. auto.
Qed.

Ltac sound_tac :=
  repeat first
    [ apply sound_bind_self; intros ? ?
    | apply sound_bind_validate; intros ?; cbv beta iota delta [negb]
    | apply sound_bind_dumps; intros ?
    | apply sound_bind; [|intros ?]
    | apply sound_try_except; [|intros ?]
    | apply sound_if
    | apply sound_ret | apply sound_raise | apply sound_lift
    | apply sound_emit; simpl
    | apply sound_assign; intros ? ?
    | match goal with
      | |- sound _ _ (match ?e with _ => _ end) => destruct e
      end
    | exact I
    | assumption ].

Ltac inv_tac :=
  match goal with
  | H : session_inv v cfg ?d |- session_inv v cfg (set_is_connected _ ?d) =>
      apply (inv_flags _ INACTIVE d H)
  | H : session_inv v cfg ?d |- session_inv v cfg (set_status _ ?d) =>
      apply (inv_flags false _ d H)
  | H : session_inv v cfg ?d |- session_inv v cfg (set_state _ ?d) =>
      apply (inv_state _ d H)
  | H : session_inv v cfg ?d |- session_inv v cfg (set_last_heartbeat _ ?d) =>
      apply (inv_heartbeat _ d H)
  | H : session_inv v cfg ?d |- session_inv v cfg (set_error_count 0 ?d) =>
      apply (inv_errors d H)
  | H : session_inv v cfg ?d |- session_inv v cfg (bump_error_count ?d) =>
      apply (inv_errors d H)
  | H : session_inv v cfg ?d |- session_inv v cfg (set_uptime_seconds _ ?d) =>
      apply (inv_uptime d H)
  end.

Lemma sound_on_connect (rc : Z) : sound v cfg (_on_connect rc).
Proof.
  unfold _on_connect. sound_tac; try inv_tac.
  destruct H as [_ [-> _]]. reflexivity.
Qed.

Lemma sound_on_disconnect (rc : Z) : sound v cfg (_on_disconnect rc).
Proof. unfold _on_disconnect. sound_tac; inv_tac. Qed.

Lemma sound_on_message (topic : string) (raw : wire) : sound v cfg (_on_message topic raw).
Proof.
  unfold _on_message, validate_command, call_handle_command. sound_tac; try inv_tac.
  destruct H as [Hv _]. rewrite Hv in *. assumption.
Qed.

Lemma sound_dispatch (cb : callback) : sound v cfg (dispatch cb).
Proof.
  destruct cb; simpl.
  - apply sound_on_connect.
  - apply sound_on_disconnect.
  - apply sound_on_message.
  - unfold _on_publish. sound_tac.
Qed.

Lemma sound_deliver (cbs : list callback) : sound v cfg (deliver cbs).
Proof.
  unfold sound, deliver. simpl.
  induction cbs as [|cb cbs IH]; simpl; intros w.
  - intros Hinv. split; [exact Hinv|]. exists []. auto.
  - apply (sound_then w _ _ (sound_dispatch cb w) (IH _)).
Qed.

Lemma sound_time_sleep (seconds : Z) (env : sleep_env) :
  sound v cfg (time_sleep seconds env).
Proof. unfold time_sleep. sound_tac. apply sound_deliver. Qed.

Lemma sound_connect (env : connect_env) : sound v cfg (connect env).
Proof.
  unfold connect. sound_tac; try inv_tac; try apply sound_deliver.
  destruct H as [_ [-> _]]. auto.
Qed.

Lemma sound_disconnect (env : disconnect_env) : sound v cfg (disconnect env).
Proof. unfold disconnect. sound_tac. Qed.

Lemma sound_publish_telemetry (env : publish_env) (payload : pyval) :
  sound v cfg (publish_telemetry env payload).
Proof.
  unfold publish_telemetry, validate_telemetry. sound_tac; try inv_tac.
  - destruct H as [Hv [Hc _]]. rewrite Hv, Hc in *. split; [assumption|]. left. auto.
  - destruct H as [_ [Hc _]]. rewrite Hc. apply inv_last_published. assumption.
Qed.

Lemma sound_publish_alert (now : Q) (transport : res unit) (alert_status severity : string)
    (additional_data : option (list (string * pyval))) :
  sound v cfg (publish_alert now transport alert_status severity additional_data).
Proof.
  unfold publish_alert, validate_alert. sound_tac.
  destruct H as [Hv [Hc _]]. rewrite Hv, Hc in *. split; [assumption|]. right. left. auto.
Qed.

Lemma sound_update_shadow (transport : res unit) (reported_state : pyval) :
  sound v cfg (update_shadow transport reported_state).
Proof.
  unfold update_shadow. sound_tac.
  destruct H as [_ [Hc _]]. rewrite Hc. split; [assumption|]. right. right. eauto.
Qed.

Lemma sound_iteration (interval : Z) (env : iter_env) : sound v cfg (iteration interval env).
Proof.
  unfold iteration. apply sound_try_except; [|intros e].
  - unfold loop_body.
    apply sound_bind;
      [unfold call_generate_telemetry; sound_tac; inv_tac | intros telemetry].
    apply sound_bind; [apply sound_publish_telemetry | intros _].
    apply sound_bind_self. intros d Hd.
    apply sound_bind; [apply sound_update_shadow | intros _].
    apply sound_time_sleep.
  - unfold loop_handler.
    apply sound_bind; [apply sound_emit; exact I | intros _].
    apply sound_bind; [apply sound_assign; intros d Hd; inv_tac | intros _].
    apply sound_time_sleep.
Qed.

Lemma sound_run_loop (interval : Z) (script : list iter_env) :
  sound v cfg (run_loop interval script).
Proof.
  unfold sound.
  induction script as [|env rest IH]; simpl; intros w.
  - destruct (is_connected (dev w)); intros Hinv; (split; [exact Hinv|]); exists []; auto.
  - destruct (is_connected (dev w));
      [|intros Hinv; (split; [exact Hinv|]); exists []; auto].
    pose proof (sound_iteration interval env w) as Hit.
    destruct (iteration interval env w) as [[u|e] w']; simpl in *; [|exact Hit].
    apply (sound_then w w' _ Hit (IH w')).
Qed.

Lemma sound_run_finally (fin : disconnect_env) : sound v cfg (run_finally fin).
Proof. unfold run_finally. sound_tac. Qed.

Lemma sound_run (interval_override : option Z) (script : list iter_env)
    (fin : disconnect_env) :
  sound v cfg (run interval_override script fin).
Proof.
  intros w. rewrite run_unfold.
  set (w0 := {| dev := dev w; trace := Log INFO "started" :: trace w |}).
  assert (H0 : session_inv v cfg (dev w) ->
            session_inv v cfg (dev w0)
            /\ exists new, trace w0 = new ++ trace w /\ Forall (permitted v cfg) new).
  { intros Hinv. split; [exact Hinv|]. exists [Log INFO "started"]. split; [reflexivity|].
    constructor; simpl; auto. }
  pose proof (sound_run_loop (py_or interval_override (publish_interval (config (dev w))))
                script w0) as Hloop.
  assert (Hfin : forall a, permitted v cfg a -> sound v cfg (emit a ;;; run_finally fin)).
  { intros a Ha. apply sound_bind; [apply sound_emit, Ha | intros _; apply sound_run_finally]. }
  destruct (run_loop _ script w0) as [[[|]|e] w'] eqn:Hrun; simpl in Hloop.
  - apply (sound_then w w0 _ H0). apply (sound_then w0 w' _ Hloop).
    apply sound_run_finally.
  - apply (sound_then w w0 _ H0 Hloop).
  - apply (sound_then w w0 _ H0). apply (sound_then w0 w' _ Hloop).
    destruct e; apply Hfin; exact I.
Qed.

Lemma sound_step (ev : event) (w : world) :
  session_inv v cfg (dev w) ->
  session_inv v cfg (dev (step ev w))
  /\ exists new, trace (step ev w) = new ++ trace w /\ Forall (permitted v cfg) new.
Proof.
  destruct ev; simpl; unfold exec.
  - apply sound_dispatch.
  - apply sound_connect.
  - apply sound_disconnect.
  - apply sound_publish_telemetry.
  - apply sound_publish_alert.
  - apply sound_update_shadow.
  - apply sound_run.
Qed.

Lemma sound_steps (evs : list event) (w : world) :
  session_inv v cfg (dev w) ->
  session_inv v cfg (dev (steps evs w))
  /\ exists new, trace (steps evs w) = new ++ trace w /\ Forall (permitted v cfg) new.
Proof.
  unfold steps. revert w.
  induction evs as [|ev evs IH]; simpl; intros w.
  - intros Hinv. split; [exact Hinv|]. exists []. auto.
  - apply (sound_then w _ _ (sound_step ev w) (IH _)).
Qed.

End Sound.

Lemma new_session_inv (cfg : DeviceConfig) (now : Q) (v : SchemaValidator) :
  session_inv v cfg (dev (new_session cfg now v)).
Proof.
  unfold session_inv. simpl. repeat split; try lia.
  intros topic [x Hx]. rewrite lookup_empty in Hx. discriminate.
Qed.

(** X13.  Over a whole session, whatever the events and however they
    interleave: every message handed to the MQTT client was accepted by
    [json.dumps] and is a telemetry envelope that passed
    [validate_telemetry] on the telemetry topic of the device, an alert
    envelope that passed [validate_alert] on its alerts topic, or a
    [{"state": {"reported": ...}}] report on its shadow topic; every
    command handed to the subclass passed [validate_command]; and the
    only subscription ever made is to the shadow delta topic of the
    device. *)
Theorem session_only_sends_validated (cfg : DeviceConfig) (now : Q) (v : SchemaValidator)
    (evs : list event) :
  let tr := trace (steps evs (new_session cfg now v)) in
  (forall topic message,
      In (Publish topic message) tr ->
      dumps_error message = None
      /\ ((topic = telemetry_topic cfg /\ verdict v message "telemetry" = Ok true)
          \/ (topic = alerts_topic cfg /\ verdict v message "alert" = Ok true)
          \/ (topic = shadow_update_topic cfg
              /\ exists s, message = VDict [("state", VDict [("reported", s)])])))
  /\ (forall command, In (HandleCommand command) tr ->
                      verdict v command "command" = Ok true)
  /\ (forall topic, In (Subscribe topic) tr -> topic = shadow_delta_topic cfg).
Proof.
  intros tr. subst tr.
  destruct (sound_steps v cfg evs _ (new_session_inv cfg now v)) as [_ [new [-> Hall]]].
  simpl. rewrite app_nil_r. rewrite Forall_forall in Hall.
  repeat split; intros;
    match goal with
    | H : In ?a new |- _ => apply list_elem_of_In in H; apply (Hall a H)
    end.
Qed.

(** X14.  Over a whole session the session object keeps its validator
    and its configuration; [error_count] is never negative;
    [uptime_seconds] is never negative when the configured
    [publish_interval] is not; and [last_published] has no entry but for
    the telemetry topic (alerts and shadow reports are not recorded
    there). *)
Theorem session_counters_stay_sane (cfg : DeviceConfig) (now : Q) (v : SchemaValidator)
    (evs : list event) :
  let d := dev (steps evs (new_session cfg now v)) in
  validator d = v
  /\ config d = cfg
  /\ 0 <= error_count d
  /\ (0 <= publish_interval cfg -> 0 <= uptime_seconds d)
  /\ (forall topic, is_Some (last_published d !! topic) -> topic = telemetry_topic cfg).
Proof.
  intros d. subst d.
  exact (proj1 (sound_steps v cfg evs _ (new_session_inv cfg now v))).
Qed.

(** ** What the publish and the loop let out *)

(** X18.  [publish_telemetry] lets no [Exception] out, and of the
    session object it writes at most the four counters: [status],
    [is_connected], [state], the configuration and the validator are as
    they were, whatever happened to the publish. *)
Theorem publish_telemetry_is_contained (env : publish_env) (payload : pyval) (w : world) :
  let r := publish_telemetry env payload w in
  (forall e, fst r = Err e -> is_Exception e = false)
  /\ status (dev (snd r)) = status (dev w)
  /\ is_connected (dev (snd r)) = is_connected (dev w)
  /\ state (dev (snd r)) = state (dev w)
  /\ config (dev (snd r)) = config (dev w)
  /\ validator (dev (snd r)) = validator (dev w).
Proof.
  intros r. subst r. split.
  - apply try_except_swallows. intros e w0. eexists _, _. reflexivity.
  - apply (keeps_publish_telemetry
             (fun d d' => status d' = status d /\ is_connected d' = is_connected d
                          /\ state d' = state d /\ config d' = config d
                          /\ validator d' = validator d));
      try (intros; simpl; tauto).
    intros a b c [? [? [? [? ?]]]] [? [? [? [? ?]]]]. repeat split; congruence.
Qed.


(** * The smoke test *)

Lemma check_tables_scan (c : cloud) (tables : list string) (all_exist : bool) :
  forallb (fun t => negb (table_crashes c t)) tables = true ->
  fst (check_tables c tables all_exist)
  = Done (all_exist && forallb (table_exists c) tables)
  /\ described (snd (check_tables c tables all_exist)) = tables.
Proof.
  revert all_exist.
  induction tables as [|t rest IH]; simpl; intros all_exist Hok.
  - rewrite andb_true_r. auto.
  - apply andb_true_iff in Hok as [Ht Hrest].
    unfold table_crashes in Ht. unfold table_exists at 1.
    destruct (describe_table c t) as [status|e|what]; simpl in *; [| |discriminate].
    + destruct (IH all_exist Hrest) as [-> ->]. auto.
    + destruct (IH false Hrest) as [-> ->]. rewrite andb_false_r. auto.
Qed.

(** X15.  The table check asks about every table of its list, in
    order, also after one was found missing; when no call fails for
    another reason than [ClientError], it returns true exactly when every
    table could be described. *)
Theorem check_dynamodb_scans_every_table (c : cloud) :
  forallb (fun t => negb (table_crashes c t)) TABLES_TO_CHECK = true ->
  fst (check_dynamodb c) = Done (forallb (table_exists c) TABLES_TO_CHECK)
  /\ described (snd (check_dynamodb c)) = TABLES_TO_CHECK.
Proof.
  intros Hok. unfold check_dynamodb.
  destruct (check_tables_scan c TABLES_TO_CHECK true Hok) as [H1 H2].
  cbn [fst snd]. rewrite H1. split; [reflexivity|]. exact H2.
Qed.

(** X16.  An error that is not a [ClientError] (missing credentials,
    no network) is not caught: the scan stops at the first table whose
    call raises it, the tables after it are never asked about, and the
    check does not return a verdict. *)
Theorem check_tables_stops_at_crash (c : cloud) (before after : list string)
    (t what : string) (all_exist : bool) :
  forallb (fun n => negb (table_crashes c n)) before = true ->
  describe_table c t = OtherFailure what ->
  fst (check_tables c (before ++ t :: after) all_exist) = Crashed what
  /\ described (snd (check_tables c (before ++ t :: after) all_exist)) = before ++ [t].
Proof.
  revert all_exist.
  induction before as [|b before IH]; simpl; intros all_exist Hok Ht.
  - rewrite Ht. auto.
  - apply andb_true_iff in Hok as [Hb Hrest]. unfold table_crashes in Hb.
    destruct (describe_table c b) as [status|e|w]; simpl in *; [| |discriminate].
    + destruct (IH all_exist Hrest Ht) as [-> ->]. auto.
    + destruct (IH false Hrest Ht) as [-> ->]. auto.
Qed.

Lemma described_app (o1 o2 : list output) :
  described (o1 ++ o2) = described o1 ++ described o2.
Proof.
  induction o1 as [|o o1 IH]; simpl; [reflexivity|].
  destruct o; simpl; now rewrite ?IH.
Qed.

Lemma check_tables_no_iot (c : cloud) (tables : list string) (all_exist : bool) :
  iot_calls (snd (check_tables c tables all_exist)) = [].
Proof.
  revert all_exist. induction tables as [|t rest IH]; simpl; intros all_exist;
    [reflexivity|].
  destruct (describe_table c t); simpl; auto.
Qed.

(** X17.  When no call fails for another reason than [ClientError],
    the script exits with code 0 exactly when all four tables, the
    endpoint and the thing could be described, and with code 1
    otherwise.  Either way it has asked about all four tables and then
    about the endpoint, also when a table was already missing, and it
    asks about the thing exactly when the endpoint call returned. *)
Theorem main_exit_code (c : cloud) :
  forallb (fun t => negb (table_crashes c t)) TABLES_TO_CHECK = true ->
  is_other_failure (describe_endpoint c) = false ->
  is_other_failure (describe_thing c IOT_THING_NAME) = false ->
  let healthy := forallb (table_exists c) TABLES_TO_CHECK
                 && is_returned (describe_endpoint c)
                 && is_returned (describe_thing c IOT_THING_NAME) in
  fst (main c) = Done (if healthy then 0 else 1)
  /\ described (snd (main c)) = TABLES_TO_CHECK
  /\ iot_calls (snd (main c))
     = DescribeEndpoint
       :: (if is_returned (describe_endpoint c)
           then [DescribeThing IOT_THING_NAME] else []).
Proof.
  intros Htables Hep Hth healthy. subst healthy.
  destruct (check_tables_scan c TABLES_TO_CHECK true Htables) as [Hr Hd].
  pose proof (check_tables_no_iot c TABLES_TO_CHECK true) as Hq.
  unfold main, check_dynamodb.
  destruct (check_tables c TABLES_TO_CHECK true) as [r1 out1].
  cbn [fst snd] in *. subst r1. cbn [andb].
  unfold check_iot_core.
  destruct (describe_endpoint c) as [address|e|what]; [| |discriminate Hep].
  - destruct (describe_thing c IOT_THING_NAME) as [thing_id|e|what];
      [| |discriminate Hth];
      destruct (forallb (table_exists c) TABLES_TO_CHECK); cbn [fst snd andb is_returned];
      unfold iot_calls in *; simpl;
      rewrite ?described_app, ?List.filter_app, ?Hd, ?Hq; simpl;
      repeat split; reflexivity.
  - destruct (forallb (table_exists c) TABLES_TO_CHECK); cbn [fst snd andb is_returned];
      unfold iot_calls in *; simpl;
      rewrite ?described_app, ?List.filter_app, ?Hd, ?Hq; simpl;
      repeat split; reflexivity.
Qed.

End Session.

(** * The theorems at concrete sessions *)

Lemma sample_validate_raises (instance schema : pyval) (e : exn) :
  sample_validate instance schema = Err e -> is_Exception e = true.
Proof.
  unfold sample_validate.
  destruct instance; try (intros H; inversion H; reflexivity).
  destruct (List.filter _ (required_of schema)); intros H; inversion H; reflexivity.
Qed.

(** The session of [device_1] after a successful connect acknowledgment
    and one publish on which the client raised. *)
Lemma connected_then_failed_publish_reachable :
  reachable sample_validate sample_dumps_error sample_generate sample_handle
    (steps sample_validate sample_dumps_error sample_generate sample_handle
       [EvCallback (on_connect 0); EvPublishTelemetry (bad_publish 0) sample_payload]
       (new_session device_1 0 sample_validator)).
Proof.
  exists device_1, 0%Q, sample_validator,
    [EvCallback (on_connect 0); EvPublishTelemetry (bad_publish 0) sample_payload].
  reflexivity.
Defined.

(** C1, at [device_1] after a connect and a failed publish. *)
Lemma status_follows_connection_events_witness :
  status_invariant
    (dev (steps sample_validate sample_dumps_error sample_generate sample_handle
            [EvCallback (on_connect 0); EvPublishTelemetry (bad_publish 0) sample_payload]
            (new_session device_1 0 sample_validator))).
Proof.
  exact (proj1 (status_follows_connection_events sample_validate sample_dumps_error sample_generate
                  sample_handle _ connected_then_failed_publish_reachable)).
Defined.

(** C1 as the specification words it fails: [device_1] connects
    ([rc = 0]), then one [publish_telemetry] meets a client that raises.
    The session is connected, [error_count] is 1, and [status] is still
    [ACTIVE], not [ERROR]. *)
Lemma status_rule_counterexample :
  let w := steps sample_validate sample_dumps_error sample_generate sample_handle
             [EvCallback (on_connect 0); EvPublishTelemetry (bad_publish 0) sample_payload]
             (new_session device_1 0 sample_validator) in
  is_connected (dev w) = true
  /\ error_count (dev w) = 1
  /\ status (dev w) = ACTIVE
  /\ ~ status_derivation_rule (dev w).
Proof.
  intros w.
  assert (Hc : is_connected (dev w) = true) by (vm_compute; reflexivity).
  assert (He : error_count (dev w) = 1) by (vm_compute; reflexivity).
  assert (Hs : status (dev w) = ACTIVE) by (vm_compute; reflexivity).
  repeat split; try assumption.
  intros [Hiff _]. destruct (proj1 Hiff Hs) as [_ H0]. rewrite He in H0. discriminate.
Qed.



(** X21, at the sample file system, where [alert.schema.json] is not
    JSON. *)
Lemma validate_fails_closed_witness :
  exists v p',
    SchemaValidator_init sample_fs default_schema_dir empty_process = (Ok v, p')
    /\ schemas v !! "alert" = None
    /\ fst (_validate sample_validate v sample_payload "alert"
              (device_1_world bare_validator)) = Ok false.
Proof.
  eexists _, _. split; [vm_compute; reflexivity|].
  pose proof (validate_fails_closed sample_validate sample_fs default_schema_dir
                empty_process _ _ sample_payload "alert" (device_1_world bare_validator)
                eq_refl (sample_validate_raises sample_payload)) as H.
  destruct H as [_ [_ [Habsent [_ [Hfalse _]]]]].
  assert (Hnone := Habsent "alert.schema.json"
                     ltac:(unfold schema_files; set_solver) (or_intror eq_refl)).
  split; [exact Hnone | exact (Hfalse Hnone)].
Defined.

(** C3.  A schema file that is malformed in another way than not being
    JSON does not leave its schema absent: when [alert.schema.json] holds
    bytes that are not UTF-8, [json.load] raises [UnicodeDecodeError],
    which neither [except] clause of [_load_schemas] names.  The
    construction of the validator raises, [get_validator] raises and
    keeps nothing, and so does every [BaseDevice(...)]: no validator
    comes to exist in which the alert schema is absent and
    [validate_alert] returns [False]. *)
Lemma malformed_schema_aborts :
  latin1_fs (path_join default_schema_dir "alert.schema.json") = Denied NotUtf8
  /\ fst (SchemaValidator_init latin1_fs default_schema_dir empty_process)
     = Err UnicodeDecodeError
  /\ fst (get_validator latin1_fs empty_process) = Err UnicodeDecodeError
  /\ _validator (snd (get_validator latin1_fs empty_process)) = None
  /\ (forall tls, fst (BaseDevice_init device_1 0 latin1_fs tls empty_process)
                  = Err UnicodeDecodeError)
  /\ ~ (exists v p',
          SchemaValidator_init latin1_fs default_schema_dir empty_process = (Ok v, p')
          /\ schemas v !! "alert" = None).
Proof.
  split; [vm_compute; reflexivity|].
  split; [vm_compute; reflexivity|].
  split; [vm_compute; reflexivity|].
  split; [vm_compute; reflexivity|].
  split.
  - intros tls. vm_compute. reflexivity.
  - intros [v [p' [H _]]]. vm_compute in H. discriminate.
Qed.



(** C5, the scenario of the specification: [device-1], a
    [temperature_sensor], payload [{temperature: 22.5, unit: celsius}],
    clock at 1701648000. *)
Lemma telemetry_envelope_published_witness :
  published
    (trace (snd (publish_telemetry sample_validate sample_dumps_error (good_publish (1701648000 # 1))
                   sample_payload (device_1_world sample_validator))))
  = [ ("devices/device-1/telemetry",
       VDict [ ("device_id", VStr "device-1");
               ("timestamp", VInt 1701648000);
               ("type", VStr "sensor");
               ("payload", VDict [("temperature", VFloat 45 (-1));
                                  ("unit", VStr "celsius")]) ]) ].
Proof.
  exact (proj1 (telemetry_envelope_published sample_validate sample_dumps_error
                  (good_publish (1701648000 # 1)) sample_payload
                  (device_1_world sample_validator) eq_refl
                  ltac:(vm_compute; reflexivity))).
Defined.

(** C6, the message of the specification: [{state: {action: "LOCK"}}],
    with no [request_id]. *)
Lemma invalid_command_never_handled_witness :
  let w := connected_world sample_validator in
  let raw := Json (VDict [("state", VDict [("action", VStr "LOCK")])]) in
  let w' := snd (_on_message sample_validate sample_handle
                   "$aws/things/device-1/shadow/update/delta" raw w) in
  handled (trace w') = handled (trace w) /\ dev w' = dev w.
Proof.
  intros w raw w'.
  apply (proj1 (invalid_command_never_handled sample_validate sample_handle
                  "$aws/things/device-1/shadow/update/delta" raw w)
           (VDict [("state", VDict [("action", VStr "LOCK")])])
           (VDict [("action", VStr "LOCK")]));
    vm_compute; reflexivity.
Defined.

(** C7, at [device_1] before any connect: a validator without schemas
    rejects the envelope, nothing is handed to the client and
    [error_count] stays. *)
Lemma publish_while_disconnected_witness :
  let w := device_1_world bare_validator in
  let w' := snd (publish_telemetry sample_validate sample_dumps_error (good_publish 0) sample_payload w) in
  error_count (dev w') = error_count (dev w)
  /\ published (trace w') = published (trace w).
Proof.
  intros w w'.
  destruct (publish_while_disconnected sample_validate sample_dumps_error (good_publish 0) sample_payload w
              eq_refl) as [_ [Hinvalid _]].
  apply Hinvalid. vm_compute. reflexivity.
Defined.

(** C7 as the specification words it fails at two calls made while
    [device_1] is not connected.  With no schema loaded the envelope is
    rejected and nothing raises; with the schemas loaded and a client
    whose [publish] returns, the call is handed to the client and counts
    as a published cycle.  In both, [error_count] stays 0. *)
Lemma publish_while_disconnected_counterexample :
  let rejected := snd (publish_telemetry sample_validate sample_dumps_error (good_publish 0) sample_payload
                         (device_1_world bare_validator)) in
  let accepted := snd (publish_telemetry sample_validate sample_dumps_error (good_publish 0) sample_payload
                         (device_1_world sample_validator)) in
  is_connected (dev (device_1_world bare_validator)) = false
  /\ is_connected (dev (device_1_world sample_validator)) = false
  /\ error_count (dev rejected) = 0
  /\ error_count (dev rejected) <> error_count (dev (device_1_world bare_validator)) + 1
  /\ error_count (dev accepted) = 0
  /\ error_count (dev accepted) <> error_count (dev (device_1_world sample_validator)) + 1
  /\ length (published (trace accepted)) = 1%nat
  /\ uptime_seconds (dev accepted) = 5.
Proof.
  intros rejected accepted.
  repeat split; try (vm_compute; reflexivity); vm_compute; discriminate.
Qed.


(** C9, at [device_1] with a validator that has no telemetry schema. *)
Lemma invalid_telemetry_changes_nothing_witness :
  let w := connected_world bare_validator in
  dev (snd (publish_telemetry sample_validate sample_dumps_error (good_publish 7) sample_payload w)) = dev w.
Proof.
  intros w.
  apply (invalid_telemetry_changes_nothing sample_validate sample_dumps_error (good_publish 7)
           sample_payload w).
  vm_compute. reflexivity.
Defined.

(** C10, at the sample file system: the second call, made when every
    schema file has disappeared, returns the object of the first. *)
Lemma get_validator_idempotent_witness :
  exists v p',
    get_validator sample_fs empty_process = (Ok v, p')
    /\ get_validator (fun _ => Absent) p' = (Ok v, p').
Proof.
  eexists _, _. split; [vm_compute; reflexivity|].
  match goal with
  | |- get_validator _ ?p2 = _ =>
      apply (proj1 (proj2 (proj2 (proj2 get_validator_idempotent sample_fs empty_process
                                    _ _ eq_refl)) p2 eq_refl))
  end.
Defined.

(** * The further properties at concrete inputs *)

(** X2, at [device_1]: additional data that names ["status"] replaces
    the status of the alert, and its other keys are appended. *)
Lemma publish_alert_envelope_witness :
  published
    (trace (snd (publish_alert sample_validate sample_dumps_error 0 (Ok tt) "FIRE_DETECTED" "CRITICAL"
                   (Some [("zone", VStr "kitchen"); ("status", VStr "ALL_CLEAR")])
                   (device_1_world full_validator))))
  = [ ("devices/device-1/alerts",
       VDict [ ("device_id", VStr "device-1");
               ("timestamp", VInt 0);
               ("type", VStr "sensor");
               ("payload", VDict [ ("status", VStr "ALL_CLEAR");
                                   ("severity", VStr "CRITICAL");
                                   ("zone", VStr "kitchen") ]) ]) ].
Proof.
  exact (proj1 (publish_alert_envelope sample_validate sample_dumps_error 0 (Ok tt) "FIRE_DETECTED" "CRITICAL"
                  (Some [("zone", VStr "kitchen"); ("status", VStr "ALL_CLEAR")])
                  (device_1_world full_validator) eq_refl
                  ltac:(vm_compute; reflexivity))).
Defined.

(** X7, the round trip of the specification: the command
    [{request_id: "cmd-1", action: "LOCK", parameters: {force: false}}]
    wrapped as [{state: command}]. *)
Lemma valid_command_is_dispatched_witness :
  handled
    (trace (snd (_on_message sample_validate sample_handle
                   "$aws/things/device-1/shadow/update/delta"
                   (Json (VDict [("state", lock_command)]))
                   (connected_world sample_validator))))
  = [lock_command].
Proof.
  exact (proj1 (valid_command_is_dispatched sample_validate sample_handle
                  "$aws/things/device-1/shadow/update/delta"
                  (Json (VDict [("state", lock_command)]))
                  (connected_world sample_validator) lock_command eq_refl eq_refl)).
Defined.

(** X8, at [device_1] before any connect. *)
Lemma run_without_connection_witness :
  dev (snd (run sample_validate sample_dumps_error sample_generate sample_handle None [working_turn]
              clean_hangup (device_1_world sample_validator)))
  = dev (device_1_world sample_validator).
Proof.
  exact (proj1 (run_without_connection sample_validate sample_dumps_error sample_generate sample_handle
                  None [working_turn] clean_hangup (device_1_world sample_validator)
                  eq_refl)).
Defined.

(** X9, at the connected [device_1] with an interval of -1. *)
Lemma negative_interval_ends_session_witness :
  fst (run sample_validate sample_dumps_error sample_generate sample_handle (Some (-1))
         [working_turn; working_turn] clean_hangup (connected_world sample_validator))
  <> Ok Pending.
Proof.
  exact (proj1 (proj2 (negative_interval_ends_session sample_validate sample_dumps_error sample_generate
                         sample_handle (-1) working_turn [working_turn] clean_hangup
                         (connected_world sample_validator) ltac:(lia) eq_refl))).
Defined.

(** X20, at the connected [device_1] with an interval of ten thousand
    million seconds. *)
Lemma oversized_interval_ends_session_witness :
  fst (run sample_validate sample_dumps_error sample_generate sample_handle
         (Some 10000000000) [working_turn; working_turn] clean_hangup
         (connected_world sample_validator))
  <> Ok Pending.
Proof.
  exact (proj1 (proj2 (oversized_interval_ends_session sample_validate sample_dumps_error
                         sample_generate sample_handle 10000000000 working_turn
                         [working_turn] clean_hangup (connected_world sample_validator)
                         ltac:(unfold sleep_max; lia) eq_refl))).
Defined.


(** X11, at the sample file system: the telemetry schema is the
    document of its file, and no alert schema is loaded. *)
Lemma loaded_schemas_mirror_files_witness :
  exists v p',
    SchemaValidator_init sample_fs default_schema_dir empty_process = (Ok v, p')
    /\ schemas v !! "telemetry" = Some telemetry_schema.
Proof.
  eexists _, _. split; [vm_compute; reflexivity|].
  apply (proj2 (loaded_schemas_mirror_files sample_fs default_schema_dir empty_process
                  _ _ eq_refl "telemetry" telemetry_schema)).
  exists "telemetry.schema.json". split; [|reflexivity].
  unfold schema_files. apply elem_of_cons. left. reflexivity.
Defined.

(** X15, at an account without the table [alert_log]: the tables
    after it are still asked about. *)
Lemma check_dynamodb_scans_every_table_witness :
  fst (check_dynamodb degraded_cloud) = Done false
  /\ described (snd (check_dynamodb degraded_cloud))
     = ["device_telemetry"; "device_state"; "alert_log"; "command_log"].
Proof. exact (check_dynamodb_scans_every_table degraded_cloud eq_refl). Defined.

(** X16, at an account that cannot be reached from [device_state] on. *)
Lemma check_tables_stops_at_crash_witness :
  fst (check_tables unreachable_cloud TABLES_TO_CHECK true) = Crashed "NoCredentialsError"
  /\ described (snd (check_tables unreachable_cloud TABLES_TO_CHECK true))
     = ["device_telemetry"; "device_state"].
Proof.
  exact (check_tables_stops_at_crash unreachable_cloud ["device_telemetry"]
           ["alert_log"; "command_log"] "device_state" "NoCredentialsError" true
           eq_refl eq_refl).
Defined.

(** X17, at the two accounts. *)
Lemma main_exit_code_witness :
  fst (main healthy_cloud) = Done 0 /\ fst (main degraded_cloud) = Done 1.
Proof.
  split.
  - exact (proj1 (main_exit_code healthy_cloud eq_refl eq_refl eq_refl)).
  - exact (proj1 (main_exit_code degraded_cloud eq_refl eq_refl eq_refl)).
Defined.

